(** * SuiteEditNotebookRenderer: a shallow embedding and its properties

    Source: great_expectations/render/renderer/suite_edit_notebook_renderer.py

    The renderer turns an expectation suite into a notebook.  The embedding
    follows the Python text function by function:

    - Python values are the inductive [value]; the text forms [str] and
      [repr] that [str.format] relies on are written out ([py_str],
      [py_repr]).  Floats are left out of [value]; strings are byte
      sequences, bytes from 128 up stand for printable non-ASCII text.
    - Mappings that the code mutates ([meta], [batch_kwargs]) live in a
      store ([gmap loc pyobj]) and are passed by reference, so that what the
      caller sees after a call can be stated.
    - Methods that raise or mutate are functions [world -> world * result A]:
      an exception keeps the changes made before it, as in Python.
    - The template engine, the lint pass and [ExpectationSuite.get_citations]
      are not part of this file of the repository: a cell records the
      template call that produced it, and [get_citations] is a parameter,
      as is the question whether [BatchKwargs] derives from [dict].
    - [os.path] is modelled in its POSIX flavour.

    The file has three parts: the embedding, the vocabulary in which the
    properties are stated, and the properties with their proofs (first those
    named C1 to C10, then further properties of the code, X1 to X16). *)

From Stdlib Require Import ZArith String Ascii List DecimalString.
From stdpp Require Import base option list strings gmap.

Set Warnings "-register-all".

Local Open Scope string_scope.
Local Open Scope Z_scope.

(** ** Python values *)

Inductive value : Type :=
  | VNone
  | VBool (b : bool)
  | VInt (z : Z)
  | VStr (s : string)
  | VList (l : list value)
  | VDict (d : list (string * value)).

(** A [dict] with string keys: insertion-ordered association list. *)
Abbreviation py_dict := (list (string * value)).

Inductive exn : Type :=
  | TypeError
  | KeyError
  | AttributeError
  | RuntimeWarning
  | DanglingReference.

Inductive result (A : Type) : Type :=
  | Ok (a : A)
  | Raise (e : exn).
Arguments Ok {A} a.
Arguments Raise {A} e.

(** ** Insertion-ordered dictionaries *)

Section OrderedDict.
Context {K V : Type} (eqb : K -> K -> bool).

(** [d.get(k)] *)
Fixpoint od_get (k : K) (d : list (K * V)) : option V :=
  match d with
  | [] => None
  | (k', v) :: d' => if eqb k' k then Some v else od_get k d'
  end.

(** [k in d] *)
Definition od_mem (k : K) (d : list (K * V)) : bool :=
  match od_get k d with Some _ => true | None => false end.

(** [d[k] = v]: an existing key keeps its place, a new key goes last. *)
Fixpoint od_set (k : K) (v : V) (d : list (K * V)) : list (K * V) :=
  match d with
  | [] => [(k, v)]
  | (k', v') :: d' =>
      if eqb k' k then (k', v) :: d' else (k', v') :: od_set k v d'
  end.

(** [d.pop(k)] on the mapping (the popped value is not used by the code). *)
Fixpoint od_pop (k : K) (d : list (K * V)) : list (K * V) :=
  match d with
  | [] => []
  | (k', v') :: d' => if eqb k' k then d' else (k', v') :: od_pop k d'
  end.

End OrderedDict.

Definition dict_get : string -> py_dict -> option value := od_get String.eqb.
Definition dict_mem : string -> py_dict -> bool := od_mem String.eqb.
Definition dict_set : string -> value -> py_dict -> py_dict := od_set String.eqb.
Definition dict_pop : string -> py_dict -> py_dict := od_pop String.eqb.

(** ** Text forms of values: [str(v)] and [repr(v)] *)

Definition str_of_Z (z : Z) : string := NilZero.string_of_int (Z.to_int z).

Definition hex_digit (n : N) : ascii :=
  ascii_of_N (if (n <? 10)%N then 48 + n else 87 + n)%N.

Definition quote1 : ascii := "'"%char.
Definition quote2 : ascii := ascii_of_N 34.
Definition backslash : ascii := "\"%char.

Fixpoint contains_char (c : ascii) (s : string) : bool :=
  match s with
  | EmptyString => false
  | String a s' => if Ascii.eqb a c then true else contains_char c s'
  end.

(** The quote [repr] chooses: double quotes only when the text has a single
    quote and no double quote. *)
Definition repr_quote (s : string) : ascii :=
  if contains_char quote1 s && negb (contains_char quote2 s)
  then quote2 else quote1.

Definition repr_char (q c : ascii) : string :=
  let n := N_of_ascii c in
  if Ascii.eqb c q || Ascii.eqb c backslash then String backslash (String c "")
  else if (n =? 9)%N then "\t"
  else if (n =? 10)%N then "\n"
  else if (n =? 13)%N then "\r"
  else if (n <? 32)%N || (n =? 127)%N then
    String backslash (String "x"%char
      (String (hex_digit (n / 16)) (String (hex_digit (n mod 16)) "")))
  else String c "".

Fixpoint repr_body (q : ascii) (s : string) : string :=
  match s with
  | EmptyString => ""
  | String c s' => repr_char q c +:+ repr_body q s'
  end.

Definition repr_str (s : string) : string :=
  let q := repr_quote s in
  String q (repr_body q s +:+ String q "").

Fixpoint py_repr (v : value) : string :=
  match v with
  | VNone => "None"
  | VBool true => "True"
  | VBool false => "False"
  | VInt z => str_of_Z z
  | VStr s => repr_str s
  | VList l => "[" +:+ String.concat ", " (map py_repr l) +:+ "]"
  | VDict d =>
      "{" +:+ String.concat ", "
                (map (fun kv => repr_str (fst kv) +:+ ": " +:+ py_repr (snd kv)) d)
          +:+ "}"
  end.

(** [str(v)], which is what ["{}".format(v)] inserts. *)
Definition py_str (v : value) : string :=
  match v with
  | VStr s => s
  | _ => py_repr v
  end.

(** [isinstance(v, str)] *)
Definition is_str (v : value) : bool :=
  match v with VStr _ => true | _ => false end.

(** ** Expectations *)

Abbreviation loc := positive.

(** The two classes of mapping objects the renderer tells apart. *)
Inductive pyclass : Type := ClsDict | ClsBatchKwargs.

Record pyobj : Type := PyObj { obj_class : pyclass; obj_items : py_dict }.

Record ExpectationConfiguration : Type := MkExpectation {
  expectation_type : string;
  kwargs : py_dict;
  meta : option loc
}.

(** ** ArgumentFormatter: [_build_kwargs_string] *)

(** One pass of the loop body: the fragment appended for the item [(k, v)]. *)
Definition kwarg_fragment (kv : string * value) : string :=
  let '(k, v) := kv in
  if String.eqb k "column" then "'" +:+ py_str v +:+ "'"
  else if is_str v then k +:+ "='" +:+ py_str v +:+ "'"
  else k +:+ "=" +:+ py_str v.

Fixpoint kwargs_loop (items : py_dict) (acc : list string) : list string :=
  match items with
  | [] => acc
  | kv :: rest => kwargs_loop rest (acc ++ [kwarg_fragment kv])
  end.

Definition _build_kwargs_string (expectation : ExpectationConfiguration) : string :=
  String.concat ", " (kwargs_loop (kwargs expectation) []).

(** ** ExpectationGrouper: [_get_expectations_by_column] *)

(** Keys of the grouped mapping are the values of the [column] parameter.
    A list or a dict cannot be hashed. *)
Definition hashable (v : value) : bool :=
  match v with
  | VList _ | VDict _ => false
  | _ => true
  end.

(** Equality of dictionary keys: [True == 1] and [False == 0]. *)
Definition key_eqb (a b : value) : bool :=
  match a, b with
  | VNone, VNone => true
  | VStr s, VStr t => String.eqb s t
  | VBool x, VBool y => Bool.eqb x y
  | VInt x, VInt y => Z.eqb x y
  | VBool x, VInt y => Z.eqb (if x then 1 else 0) y
  | VInt x, VBool y => Z.eqb x (if y then 1 else 0)
  | _, _ => false
  end.

Abbreviation grouped := (list (value * list ExpectationConfiguration)).

Definition table_key : value := VStr "table_expectations".

(** [d[k].append(exp)]: [KeyError] when [k] is not a key of [d]. *)
Fixpoint bucket_append (k : value) (exp : ExpectationConfiguration)
    (d : grouped) : result grouped :=
  match d with
  | [] => Raise KeyError
  | (k', b) :: d' =>
      if key_eqb k' k then Ok ((k', (b ++ [exp])%list) :: d')
      else match bucket_append k exp d' with
           | Ok d'' => Ok ((k', b) :: d'')
           | Raise e => Raise e
           end
  end.

Fixpoint group_loop (expectations : list ExpectationConfiguration)
    (expectations_by_column : grouped) : result grouped :=
  match expectations with
  | [] => Ok expectations_by_column
  | exp :: rest =>
      if dict_mem "column" (kwargs exp) then
        match dict_get "column" (kwargs exp) with
        | None => Raise KeyError
        | Some col =>
            if hashable col then
              let d :=
                if negb (od_mem key_eqb col expectations_by_column)
                then od_set key_eqb col [] expectations_by_column
                else expectations_by_column in
              match bucket_append col exp d with
              | Ok d' => group_loop rest d'
              | Raise e => Raise e
              end
            else Raise TypeError
        end
      else
        match bucket_append table_key exp expectations_by_column with
        | Ok d' => group_loop rest d'
        | Raise e => Raise e
        end
  end.

Definition _get_expectations_by_column
    (expectations : list ExpectationConfiguration) : result grouped :=
  group_loop expectations [(table_key, [])].

(** ** The store, cells and the state of a renderer *)

Inductive cell_type : Type := markdown_cell | code_cell.

(** What a template receives for one of its parameters. *)
Inductive tvalue : Type :=
  | TText (s : string)
  | TValue (v : value)
  | TMapping (d : py_dict)
  | TExpectation (e : ExpectationConfiguration).

(** The text of a cell is what the template engine makes of a template name
    and its parameters, passed through the lint pass when [lint] is set.
    Both are outside this file of the repository, so a cell keeps the call. *)
Record template_call : Type := Template {
  template_name : string;
  template_params : list (string * tvalue);
  lint : bool
}.

Record cell : Type := Cell { kind : cell_type; source : template_call }.

Record world : Type := World {
  heap : gmap loc pyobj;
  _notebook : option (list cell)
}.

Definition M (A : Type) : Type := world -> world * result A.

Definition ret {A} (a : A) : M A := fun w => (w, Ok a).
Definition raise {A} (e : exn) : M A := fun w => (w, Raise e).
Definition bind {A B} (c : M A) (k : A -> M B) : M B :=
  fun w => match c w with
           | (w', Ok a) => k a w'
           | (w', Raise e) => (w', Raise e)
           end.
Definition lift {A} (r : result A) : M A := fun w => (w, r).

Notation "'do' x <- c ; k" := (bind c (fun x => k))
  (at level 10, x name, c at level 100, k at level 200).
Notation "c ;; k" := (bind c (fun _ => k))
  (at level 100, k at level 200, right associativity).

Definition deref (l : loc) : M pyobj :=
  fun w => match heap w !! l with
           | Some o => (w, Ok o)
           | None => (w, Raise DanglingReference)
           end.

Definition assign (l : loc) (o : pyobj) : M unit :=
  fun w => (World (<[l := o]> (heap w)) (_notebook w), Ok tt).

Definition alloc (o : pyobj) : M loc :=
  fun w => let l := fresh (dom (heap w)) in
           (World (<[l := o]> (heap w)) (_notebook w), Ok l).

Definition read_heap : M (gmap loc pyobj) := fun w => (w, Ok (heap w)).

(** ** MetaFormatter: [_build_meta_arguments] *)

Definition profiler : string := "BasicSuiteBuilderProfiler".

Definition is_empty {A} (l : list A) : bool :=
  match l with [] => true | _ => false end.

Definition _build_meta_arguments (meta : option loc) : M string :=
  match meta with
  | None => ret ""
  | Some l =>
      do o <- deref l;
      if is_empty (obj_items o) then ret ""
      else
        (if dict_mem profiler (obj_items o)
         then assign l (PyObj (obj_class o) (dict_pop profiler (obj_items o)))
         else ret tt) ;;
        do o' <- deref l;
        if negb (is_empty (obj_items o'))
        then ret (", meta=" +:+ py_repr (VDict (obj_items o')))
        else ret ""
  end.

(** ** BatchSourceResolver *)

(** [os.path.isabs] and [os.path.join], as [posixpath] defines them *)
Definition startswith (p s : string) : bool := String.prefix p s.

Fixpoint endswith_sep (s : string) : bool :=
  match s with
  | EmptyString => false
  | String c EmptyString => Ascii.eqb c "/"%char
  | String _ s' => endswith_sep s'
  end.

Definition isabs (s : string) : bool := startswith "/" s.

Definition join_step (path b : string) : string :=
  if startswith "/" b then b
  else if String.eqb path "" || endswith_sep path then path +:+ b
  else path +:+ "/" +:+ b.

Definition join (a : string) (p : list string) : string :=
  fold_left join_step p a.

Definition _fix_path_in_batch_kwargs (batch_kwargs : option loc) : M (option loc) :=
  do batch_kwargs <-
    match batch_kwargs with
    | None => ret None
    | Some l =>
        do o <- deref l;
        match obj_class o with
        | ClsBatchKwargs =>
            do l' <- alloc (PyObj ClsDict (obj_items o)); ret (Some l')
        | ClsDict => ret (Some l)
        end
    end;
  match batch_kwargs with
  | None => ret None
  | Some l =>
      do o <- deref l;
      if negb (is_empty (obj_items o)) && dict_mem "path" (obj_items o) then
        match dict_get "path" (obj_items o) with
        | None => raise KeyError
        | Some (VStr base_dir) =>
            if negb (isabs base_dir) then
              assign l (PyObj (obj_class o)
                          (dict_set "path" (VStr (join ".." [".."; base_dir]))
                                    (obj_items o))) ;;
              ret (Some l)
            else ret (Some l)
        | Some _ => raise TypeError
        end
      else ret (Some l)
  end.

(** ** NotebookAssembler *)

Record NotebookConfig : Type := MkNotebookConfig {
  file_name : string;
  template_kwargs : py_dict
}.

(** The attributes of [self] that [render] reads. *)
Record SuiteEditNotebookRenderer : Type := MkRenderer {
  header_markdown : option NotebookConfig
}.

(** [self._notebook = nbformat.v4.new_notebook()] *)
Definition new_notebook : M unit :=
  fun w => (World (heap w) (Some []), Ok tt).

(** [self._notebook], as [render] returns it. *)
Definition get_notebook : M (list cell) :=
  fun w => match _notebook w with
           | Some cells => (w, Ok cells)
           | None => (w, Raise AttributeError)
           end.

(** [self._notebook["cells"].append(cell)] *)
Definition append_cell (c : cell) : M unit :=
  fun w => match _notebook w with
           | Some cells => (World (heap w) (Some (cells ++ [c])%list), Ok tt)
           | None => (w, Raise AttributeError)
           end.

Definition add_code_cell (code_file : string) (lint : bool)
    (template_params : list (string * tvalue)) : M unit :=
  append_cell (Cell code_cell (Template code_file template_params lint)).

Definition add_markdown_cell_str (markdown : template_call) : M unit :=
  append_cell (Cell markdown_cell markdown).

Definition add_markdown_cell (markdown_file : string)
    (template_params : list (string * tvalue)) : M unit :=
  append_cell (Cell markdown_cell (Template markdown_file template_params false)).

Definition add_header (self : SuiteEditNotebookRenderer) (suite_name : string)
    (batch_kwargs : option loc) : M unit :=
  do markdown <-
    match header_markdown self with
    | Some cfg =>
        (* render(suite_name=suite_name, **template_kwargs) *)
        if dict_mem "suite_name" (template_kwargs cfg) then raise TypeError
        else ret (Template (file_name cfg)
                    (("suite_name", TText suite_name)
                       :: map (fun kv => (fst kv, TValue (snd kv)))
                              (template_kwargs cfg))
                    false)
    | None => ret (Template "HEADER.md" [("suite_name", TText suite_name)] false)
    end;
  add_markdown_cell_str markdown ;;
  do batch_kwargs <-
    match batch_kwargs with
    | None => ret []
    | Some l => do o <- deref l; ret (obj_items o)
    end;
  add_code_cell "header.py" true
    [("suite_name", TText suite_name); ("batch_kwargs", TMapping batch_kwargs)].

Definition add_footer : M unit :=
  add_markdown_cell "FOOTER.md" [] ;;
  add_code_cell "footer.py" false [].

Definition add_authoring_intro : M unit :=
  add_markdown_cell "AUTHORING_INTRO.md" [].

Fixpoint for_each {A} (l : list A) (body : A -> M unit) : M unit :=
  match l with
  | [] => ret tt
  | x :: l' => body x ;; for_each l' body
  end.

Definition _add_table_level_expectations (expectations_by_column : grouped) : M unit :=
  match od_get key_eqb table_key expectations_by_column with
  | None => raise KeyError
  | Some [] => add_markdown_cell "TABLE_EXPECTATIONS_NOT_FOUND.md" []
  | Some table_expectations =>
      for_each table_expectations (fun exp =>
        add_code_cell "table_expectation.py" true
          [("expectation", TExpectation exp);
           ("kwargs_string", TText (_build_kwargs_string exp))])
  end.

Definition _add_column_level_expectations (expectations_by_column : grouped) : M unit :=
  if is_empty expectations_by_column then
    add_markdown_cell "COLUMN_EXPECTATIONS_NOT_FOUND.md" []
  else
    for_each expectations_by_column (fun '(column, expectations) =>
      add_markdown_cell "COLUMN_EXPECTATIONS.md" [("column", TValue column)] ;;
      for_each expectations (fun exp =>
        do meta_args <- _build_meta_arguments (meta exp);
        add_code_cell "column_expectation.py" true
          [("expectation", TExpectation exp);
           ("kwargs_string", TText (_build_kwargs_string exp));
           ("meta_args", TText meta_args)])).

Definition add_expectation_cells_from_suite
    (expectations : list ExpectationConfiguration) : M unit :=
  do expectations_by_column <- lift (_get_expectations_by_column expectations);
  add_markdown_cell "TABLE_EXPECTATIONS_HEADER.md" [] ;;
  _add_table_level_expectations expectations_by_column ;;
  (* expectations_by_column.pop("table_expectations") *)
  do expectations_by_column <-
    (if od_mem key_eqb table_key expectations_by_column
     then ret (od_pop key_eqb table_key expectations_by_column)
     else raise KeyError);
  add_markdown_cell "COLUMN_EXPECTATIONS_HEADER.md" [] ;;
  _add_column_level_expectations expectations_by_column.

Record citation : Type := Citation {
  citation_date : string;
  citation_batch_kwargs : option loc
}.

(** [meta_citations] is [suite.meta.get("citations")]. *)
Record ExpectationSuite : Type := Suite {
  expectation_suite_name : string;
  expectations : list ExpectationConfiguration;
  meta_citations : option (list citation)
}.

Section Renderer.
(** [ExpectationSuite.get_citations(require_batch_kwargs=True)] is defined
    in [great_expectations.core]; it reads the suite and, to test whether a
    citation carries batch_kwargs, the store. *)
Variable get_citations : gmap loc pyobj -> ExpectationSuite -> list citation.

(** Whether the class [BatchKwargs] (great_expectations.core.id_dict)
    derives from [dict]. *)
Variable BatchKwargs_is_dict : bool.

Definition isinstance_dict (h : gmap loc pyobj) (x : option loc) : bool :=
  match x with
  | None => false
  | Some l =>
      match h !! l with
      | Some (PyObj ClsDict _) => true
      | Some (PyObj ClsBatchKwargs _) => BatchKwargs_is_dict
      | None => false
      end
  end.

Definition get_batch_kwargs (suite : ExpectationSuite)
    (batch_kwargs : option loc) : M (option loc) :=
  do h <- read_heap;
  if isinstance_dict h batch_kwargs then _fix_path_in_batch_kwargs batch_kwargs
  else
    match meta_citations suite with
    | None | Some [] => _fix_path_in_batch_kwargs batch_kwargs
    | Some _ =>
        match last (get_citations h suite) with
        | None => ret None
        | Some citation =>
            _fix_path_in_batch_kwargs (citation_batch_kwargs citation)
        end
    end.

(** The first argument of [render]: an [ExpectationSuite] or anything else. *)
Inductive render_arg : Type :=
  | IsSuite (suite : ExpectationSuite)
  | NotSuite (v : value).

Definition render (self : SuiteEditNotebookRenderer) (suite : render_arg)
    (batch_kwargs : option loc) : M (list cell) :=
  match suite with
  | NotSuite _ => raise RuntimeWarning
  | IsSuite suite =>
      new_notebook ;;
      let suite_name := expectation_suite_name suite in
      do batch_kwargs <- get_batch_kwargs suite batch_kwargs;
      add_header self suite_name batch_kwargs ;;
      add_authoring_intro ;;
      add_expectation_cells_from_suite (expectations suite) ;;
      add_footer ;;
      get_notebook
  end.
End Renderer.

(** * Vocabulary of the statements *)

(** ** ArgumentFormatter *)

(** The two forms of a rendered parameter. *)
Definition positional_fragment (v : value) : string := "'" +:+ py_str v +:+ "'".

Definition named_fragment (kv : string * value) : string :=
  if is_str (snd kv) then fst kv +:+ "='" +:+ py_str (snd kv) +:+ "'"
  else fst kv +:+ "=" +:+ py_str (snd kv).

(** Rules, stores and suites used in the examples. *)
Definition rule_column_last : ExpectationConfiguration :=
  MkExpectation "expect_column_values_to_be_between"
    [("min_value", VInt 0); ("column", VStr "age")] None.

Definition rule_column_first : ExpectationConfiguration :=
  MkExpectation "expect_column_values_to_be_between"
    [("column", VStr "age"); ("min_value", VInt 0); ("strict", VBool true)] None.

Definition profiled_meta : py_dict :=
  [(profiler, VDict [("confidence", VStr "very low")]); ("notes", VStr "ok")].

Definition world_with_meta : world :=
  World {[ 1%positive := PyObj ClsDict profiled_meta ]} None.

Definition world_relative : world :=
  World {[ 1%positive := PyObj ClsDict [("path", VStr "data/file.csv")] ]} None.

Definition world_absolute : world :=
  World {[ 1%positive := PyObj ClsDict [("path", VStr "/abs/file.csv")] ]} None.

(** ** BatchSourceResolver *)

(** Modelled from the spec: [ExpectationSuite.get_citations] is defined in
    great_expectations.core, outside this file.  The spec has the resolver
    use the most recent of the provenance entries that carry a source
    descriptor; this instance keeps the citations whose batch_kwargs is a
    non-empty mapping, in the order the suite stores them (oldest first).
    It instantiates the parameter in the examples below. *)
Definition citations_with_batch_kwargs (h : gmap loc pyobj)
    (suite : ExpectationSuite) : list citation :=
  match meta_citations suite with
  | None => []
  | Some cs =>
      List.filter (fun c =>
        match citation_batch_kwargs c with
        | None => false
        | Some l =>
            match h !! l with
            | Some o => negb (is_empty (obj_items o))
            | None => false
            end
        end) cs
  end.

(** ** ExpectationGrouper *)

(** The value of the [column] parameter of a rule, if it has one. *)
Definition column_of (exp : ExpectationConfiguration) : option value :=
  dict_get "column" (kwargs exp).

(** The column names of a sequence of rules, in suite order. *)
Fixpoint columns (exps : list ExpectationConfiguration) : list value :=
  match exps with
  | [] => []
  | e :: rest =>
      match column_of e with
      | Some c => c :: columns rest
      | None => columns rest
      end
  end.

(** The first occurrence of every key of a list, in order of appearance. *)
Fixpoint first_seen (l : list value) : list value :=
  match l with
  | [] => []
  | c :: l' => c :: List.filter (fun x => negb (key_eqb c x)) (first_seen l')
  end.

(** The key under which a rule is filed, and the rules filed under a key. *)
Definition bucket_key (exp : ExpectationConfiguration) : value :=
  match column_of exp with Some c => c | None => table_key end.

Definition in_bucket (k : value) (exp : ExpectationConfiguration) : bool :=
  key_eqb k (bucket_key exp).

(** [c in d.keys()] *)
Definition key_in (c : value) (d : grouped) : bool := od_mem key_eqb c d.

(** No two keys of the list are equal as dictionary keys. *)
Fixpoint distinct_keys (l : list value) : bool :=
  match l with
  | [] => true
  | k :: l' => forallb (fun x => negb (key_eqb k x)) l' && distinct_keys l'
  end.

(** Keys compare equal exactly when both can be hashed and agree once a
    boolean is read as the integer it is. *)
Definition key_norm (v : value) : value :=
  match v with
  | VBool b => VInt (if b then 1 else 0)
  | _ => v
  end.

(** Appending a rule to the bucket of a key that is present. *)
Definition append_to (c : value) (exp : ExpectationConfiguration)
    (d : grouped) : grouped :=
  map (fun kb => (fst kb,
                  if key_eqb (fst kb) c then (snd kb ++ [exp])%list else snd kb)) d.

(** A bucket after the loop has gone through [exps], and the bucket of a
    key that the loop adds. *)
Definition with_rules (exps : list ExpectationConfiguration)
    (kb : value * list ExpectationConfiguration) :=
  (fst kb, (snd kb ++ List.filter (in_bucket (fst kb)) exps)%list).

Definition new_bucket (exps : list ExpectationConfiguration) (k : value) :=
  (k, List.filter (in_bucket k) exps).

(** A rule on a column and a table-scope rule. *)
Definition rule_on (column : string) (expectation_type : string) :
    ExpectationConfiguration :=
  MkExpectation expectation_type [("column", VStr column); ("mostly", VInt 1)] None.

Definition rule_on_table (expectation_type : string) : ExpectationConfiguration :=
  MkExpectation expectation_type [("value", VInt 3)] None.

(** The buckets as the rules themselves determine them: the rules without
    a [column] parameter, the rules on a column, and one bucket per column
    name in first-seen order; all in suite order. *)
Definition table_scope_rules (exps : list ExpectationConfiguration) :
    list ExpectationConfiguration :=
  List.filter (fun e => match column_of e with None => true | Some _ => false end)
    exps.

Definition rules_on_column (c : value) (exps : list ExpectationConfiguration) :
    list ExpectationConfiguration :=
  List.filter (fun e => match column_of e with
                        | Some c' => key_eqb c c'
                        | None => false
                        end) exps.

Definition column_buckets (exps : list ExpectationConfiguration) : grouped :=
  map (fun c => (c, rules_on_column c exps)) (first_seen (columns exps)).

(** No column is named like the table bucket. *)
Definition no_reserved_column (exps : list ExpectationConfiguration) : Prop :=
  Forall (fun c => key_eqb table_key c = false) (columns exps).

Definition rules_a_table_b : list ExpectationConfiguration :=
  [rule_on "a" "expect_1"; rule_on "table_expectations" "expect_2";
   rule_on "b" "expect_3"].

(** ** NotebookAssembler *)

(** A descriptor that [_fix_path_in_batch_kwargs] accepts: absent, or a
    mapping of the store whose [path], if it has one, is a string. *)
Definition descriptor_ok (h : gmap loc pyobj) (d : option loc) : bool :=
  match d with
  | None => true
  | Some l =>
      match h !! l with
      | None => false
      | Some o =>
          match dict_get "path" (obj_items o) with
          | Some v => is_str v
          | None => true
          end
      end
  end.

(** A header configuration whose extra template parameters do not repeat
    the [suite_name] keyword. *)
Definition header_ok (self : SuiteEditNotebookRenderer) : bool :=
  match header_markdown self with
  | Some cfg => negb (dict_mem "suite_name" (template_kwargs cfg))
  | None => true
  end.

(** The items of a resolved descriptor, as [add_header] hands them to the
    header template. *)
Definition descriptor_items (h : gmap loc pyobj) (d : option loc) : py_dict :=
  match d with
  | None => []
  | Some l => match h !! l with Some o => obj_items o | None => [] end
  end.

(** A reference that points into the store (every Python reference does). *)
Definition allocated (h : gmap loc pyobj) (d : option loc) : Prop :=
  match d with None => True | Some l => is_Some (h !! l) end.

(** Every descriptor the resolver may pick can be normalized. *)
Definition descriptors_ok
    (get_citations : gmap loc pyobj -> ExpectationSuite -> list citation)
    (w : world) (suite : ExpectationSuite) (batch_kwargs : option loc) : Prop :=
  descriptor_ok (heap w) batch_kwargs = true /\
  Forall (fun c => descriptor_ok (heap w) (citation_batch_kwargs c) = true)
    (get_citations (heap w) suite).

(** The cells of the document, by the template that produced them. *)
Definition from_template (k : cell_type) (name : string) (c : cell) : bool :=
  match kind c, k with
  | markdown_cell, markdown_cell | code_cell, code_cell =>
      String.eqb (template_name (source c)) name
  | _, _ => false
  end.

(** A per-rule executable cell. *)
Definition is_rule_cell (c : cell) : bool :=
  from_template code_cell "table_expectation.py" c
  || from_template code_cell "column_expectation.py" c.

(** The cells [render] builds, by role. *)
Definition header_template (self : SuiteEditNotebookRenderer)
    (suite_name : string) : template_call :=
  match header_markdown self with
  | Some cfg =>
      Template (file_name cfg)
        (("suite_name", TText suite_name)
           :: map (fun kv => (fst kv, TValue (snd kv))) (template_kwargs cfg))
        false
  | None => Template "HEADER.md" [("suite_name", TText suite_name)] false
  end.

Definition header_cells (self : SuiteEditNotebookRenderer) (suite_name : string)
    (batch_kwargs : py_dict) : list cell :=
  [Cell markdown_cell (header_template self suite_name);
   Cell code_cell
     (Template "header.py"
        [("suite_name", TText suite_name); ("batch_kwargs", TMapping batch_kwargs)]
        true)].

Definition intro_cell : cell :=
  Cell markdown_cell (Template "AUTHORING_INTRO.md" [] false).

Definition static_markdown (name : string) : cell :=
  Cell markdown_cell (Template name [] false).

Definition footer_cells : list cell :=
  [static_markdown "FOOTER.md"; Cell code_cell (Template "footer.py" [] false)].

(** The document of a suite without rules. *)
Definition empty_suite_cells (self : SuiteEditNotebookRenderer)
    (suite_name : string) (batch_kwargs : py_dict) : list cell :=
  (header_cells self suite_name batch_kwargs
   ++ [intro_cell;
       static_markdown "TABLE_EXPECTATIONS_HEADER.md";
       static_markdown "TABLE_EXPECTATIONS_NOT_FOUND.md";
       static_markdown "COLUMN_EXPECTATIONS_HEADER.md";
       static_markdown "COLUMN_EXPECTATIONS_NOT_FOUND.md"]
   ++ footer_cells)%list.

Definition table_cell (exp : ExpectationConfiguration) : cell :=
  Cell code_cell
    (Template "table_expectation.py"
       [("expectation", TExpectation exp);
        ("kwargs_string", TText (_build_kwargs_string exp))] true).

Definition column_cell (exp : ExpectationConfiguration) (meta_args : string) : cell :=
  Cell code_cell
    (Template "column_expectation.py"
       [("expectation", TExpectation exp);
        ("kwargs_string", TText (_build_kwargs_string exp));
        ("meta_args", TText meta_args)] true).

Definition column_header (column : value) : cell :=
  Cell markdown_cell (Template "COLUMN_EXPECTATIONS.md" [("column", TValue column)] false).

(** The suite of the failing case of C8: one table-scope rule and two rules
    on a column named like the table bucket. *)
Definition suite_column_named_table_expectations : ExpectationSuite :=
  Suite "mysuite"
    [rule_on_table "expect_table_row_count_to_equal";
     rule_on "table_expectations" "expect_column_values_to_not_be_null";
     rule_on "table_expectations" "expect_column_values_to_be_unique"]
    None.

(** ** Further vocabulary *)

(** The state of the grouping loop is a dictionary: it has the table key
    and no key twice. *)
Definition grouped_inv (acc : grouped) : Prop :=
  key_in table_key acc = true /\ distinct_keys (map fst acc) = true.

(** All rules of a grouped mapping, bucket after bucket. *)
Definition all_rules (g : grouped) : list ExpectationConfiguration :=
  concat (map snd g).

(** A rule whose [column] value cannot be a dictionary key. *)
Definition unhashable_column (e : ExpectationConfiguration) : Prop :=
  exists c, column_of e = Some c /\ hashable c = false.

Definition rule_on_list_column : ExpectationConfiguration :=
  MkExpectation "expect_column_pair_values_to_be_equal"
    [("column", VList [VStr "a"; VStr "b"])] None.

(** [n] times two parent-directory steps in front of a path. *)
Fixpoint up_levels (n : nat) (p : string) : string :=
  match n with
  | O => p
  | S n' => "../../" +:+ up_levels n' p
  end.

(** The store after [n] calls of [_fix_path_in_batch_kwargs] on the same
    reference. *)
Fixpoint normalize_times (n : nat) (l : loc) (w : world) : world :=
  match n with
  | O => w
  | S n' => fst (_fix_path_in_batch_kwargs (Some l) (normalize_times n' l w))
  end.

Definition world_batch_kwargs : world :=
  World {[ 1%positive :=
             PyObj ClsBatchKwargs [("table", VStr "t"); ("path", VStr "data/file.csv")] ]}
        None.

Definition world_bad_path : world :=
  World {[ 1%positive := PyObj ClsDict [("path", VInt 5)] ]} None.

Definition world_no_path : world :=
  World {[ 1%positive := PyObj ClsDict [("table", VStr "t")] ]} None.

(** A suite whose only citation carries the descriptor at reference 1. *)
Definition suite_with_citation : ExpectationSuite :=
  Suite "mysuite" [] (Some [Citation "2020-01-01" (Some 1%positive)]).

(** What the document holds at one place: a cell that is fully determined,
    or the executable cell of a column rule, whose [meta_args] text depends
    on the store at the moment the rule is rendered. *)
Inductive slot : Type :=
  | Exactly (c : cell)
  | ColumnRule (e : ExpectationConfiguration).

Definition fills (s : slot) (c : cell) : Prop :=
  match s with
  | Exactly c' => c = c'
  | ColumnRule e => exists meta_args, c = column_cell e meta_args
  end.

(** The cells of the table section after its header. *)
Definition table_section (table : list ExpectationConfiguration) : list cell :=
  if is_empty table
  then [static_markdown "TABLE_EXPECTATIONS_NOT_FOUND.md"]
  else map table_cell table.

(** The places of the column section after its header. *)
Definition bucket_slots (kb : value * list ExpectationConfiguration) : list slot :=
  Exactly (column_header (fst kb)) :: map ColumnRule (snd kb).

Definition column_section (cols : grouped) : list slot :=
  if is_empty cols
  then [Exactly (static_markdown "COLUMN_EXPECTATIONS_NOT_FOUND.md")]
  else flat_map bucket_slots cols.

(** The places of the whole document, for the resolved descriptor items and
    the grouped rules. *)
Definition document_slots (self : SuiteEditNotebookRenderer) (suite_name : string)
    (batch_kwargs : py_dict) (table : list ExpectationConfiguration)
    (cols : grouped) : list slot :=
  (map Exactly
     (header_cells self suite_name batch_kwargs
      ++ [intro_cell; static_markdown "TABLE_EXPECTATIONS_HEADER.md"]
      ++ table_section table
      ++ [static_markdown "COLUMN_EXPECTATIONS_HEADER.md"])
   ++ column_section cols
   ++ map Exactly footer_cells)%list.

Definition world_with_profiled_rules : world :=
  World {[ 1%positive := PyObj ClsDict profiled_meta;
           2%positive := PyObj ClsDict [("path", VStr "data/file.csv")] ]} None.

Definition suite_one_table_two_column : ExpectationSuite :=
  Suite "mysuite"
    [rule_on_table "expect_table_row_count_to_equal";
     MkExpectation "expect_column_values_to_not_be_null"
       [("column", VStr "x")] (Some 1%positive);
     MkExpectation "expect_column_values_to_be_unique"
       [("column", VStr "x")] None]
    None.

(** A store whose mappings are dictionaries: no key twice. *)
Definition store_wf (h : gmap loc pyobj) : Prop :=
  forall l o, h !! l = Some o -> NoDup (map fst (obj_items o)).

Definition without_profiler (o : pyobj) : pyobj :=
  PyObj (obj_class o) (dict_pop profiler (obj_items o)).

(** [h'] is [h] where some mappings have lost their profiler key, and
    nothing else differs. *)
Definition stripped (h h' : gmap loc pyobj) : Prop :=
  forall l,
    h' !! l = h !! l
    \/ exists o, h !! l = Some o /\ h' !! l = Some (without_profiler o).

(** The metadata behind a reference has no profiler key. *)
Definition profiler_free (h : gmap loc pyobj) (m : option loc) : Prop :=
  match m with
  | None => True
  | Some l => exists o, h !! l = Some o /\ dict_mem profiler (obj_items o) = false
  end.

Definition profiled_rule : ExpectationConfiguration :=
  MkExpectation "expect_column_values_to_not_be_null"
    [("column", VStr "x")] (Some 1%positive).

Definition renderer_repeating_suite_name : SuiteEditNotebookRenderer :=
  MkRenderer (Some (MkNotebookConfig "CUSTOM_HEADER.md"
                      [("suite_name", VStr "other"); ("team", VStr "data")])).

(** * Properties *)

(** ** Dictionaries *)

Section OrderedDictFacts.

Context {K V : Type} (eqb : K -> K -> bool).

Lemma od_pop_absent (k : K) (d : list (K * V)) :
  od_get eqb k d = None -> od_pop eqb k d = d.
Proof.
  induction d as [|[k' v'] d IH]; simpl; [done|].
  destruct (eqb k' k); [done|]. intros H. by rewrite IH.
Qed.

Lemma od_get_set_eq (k : K) (v : V) (d : list (K * V)) :
  eqb k k = true -> od_get eqb k (od_set eqb k v d) = Some v.
Proof.
  intros Hk. induction d as [|[k' v'] d IH]; simpl.
  - by rewrite Hk.
  - destruct (eqb k' k) eqn:E; simpl; rewrite E; [done|exact IH].
Qed.

Lemma od_set_keys (k : K) (v : V) (d : list (K * V)) :
  od_mem eqb k d = true -> map fst (od_set eqb k v d) = map fst d.
Proof.
  unfold od_mem. induction d as [|[k' v'] d IH]; simpl; [done|].
  destruct (eqb k' k); simpl; [done|]. intros H. by rewrite IH.
Qed.

Lemma od_set_absent (k : K) (v : V) (d : list (K * V)) :
  od_mem eqb k d = false -> od_set eqb k v d = (d ++ [(k, v)])%list.
Proof.
  unfold od_mem. induction d as [|[k' v'] d IH]; simpl; [done|].
  destruct (eqb k' k); simpl; [done|]. intros H. by rewrite IH.
Qed.

End OrderedDictFacts.

Lemma dict_pop_absent (k : string) (d : py_dict) :
  dict_mem k d = false -> dict_pop k d = d.
Proof.
  unfold dict_mem, od_mem, dict_pop. intros H. apply od_pop_absent.
  by destruct (od_get String.eqb k d).
Qed.

Lemma dict_get_pop_ne (k k' : string) (d : py_dict) :
  k' <> k -> dict_get k' (dict_pop k d) = dict_get k' d.
Proof.
  intros Hne. unfold dict_get, dict_pop.
  induction d as [|[a v] d IH]; simpl; [done|].
  destruct (String.eqb a k) eqn:E.
  - apply String.eqb_eq in E. subst a.
    destruct (String.eqb k k') eqn:E'; [|done].
    apply String.eqb_eq in E'. congruence.
  - simpl. by rewrite IH.
Qed.

Lemma dict_get_set_ne (k k' : string) (v : value) (d : py_dict) :
  k' <> k -> dict_get k' (dict_set k v d) = dict_get k' d.
Proof.
  intros Hne. unfold dict_get, dict_set.
  induction d as [|[a x] d IH]; simpl.
  - destruct (String.eqb k k') eqn:E; [|done].
    apply String.eqb_eq in E. congruence.
  - destruct (String.eqb a k) eqn:E; simpl.
    + apply String.eqb_eq in E. subst a.
      destruct (String.eqb k k') eqn:E'; [|done].
      apply String.eqb_eq in E'. congruence.
    + by rewrite IH.
Qed.

(** With distinct keys, popping a key is filtering it out. *)
Lemma dict_pop_filter (k : string) (d : py_dict) :
  NoDup (map fst d) ->
  dict_pop k d = List.filter (fun kv => negb (String.eqb (fst kv) k)) d.
Proof.
  unfold dict_pop. induction d as [|[a v] d IH]; simpl; [done|].
  intros Hnd. apply NoDup_cons in Hnd as [Hna Hnd].
  destruct (String.eqb a k) eqn:E; simpl.
  - apply String.eqb_eq in E. subst a.
    symmetry. apply forallb_filter_id. apply forallb_forall.
    intros [b w] Hin. simpl.
    destruct (String.eqb b k) eqn:E'; [|done].
    apply String.eqb_eq in E'. subst b.
    exfalso. apply Hna. apply list_elem_of_In. apply in_map_iff. by exists (k, w).
  - by rewrite IH.
Qed.

(** ** ArgumentFormatter *)

Lemma append_empty_r (s : string) : s +:+ "" = s.
Proof.
  induction s as [|c s IH]; [done|].
  change (String c (s +:+ "") = String c s). by f_equal.
Qed.

Lemma kwargs_loop_map (items : py_dict) (acc : list string) :
  kwargs_loop items acc = (acc ++ map kwarg_fragment items)%list.
Proof.
  revert acc. induction items as [|kv items IH]; intros acc; simpl.
  - by rewrite app_nil_r.
  - rewrite IH. by rewrite <- app_assoc.
Qed.

Lemma kwarg_fragment_named (items : py_dict) :
  Forall (fun kv => fst kv <> "column") items ->
  map kwarg_fragment items = map named_fragment items.
Proof.
  induction 1 as [|[k v] items Hk _ IH]; simpl; [done|].
  rewrite IH. f_equal. unfold named_fragment. simpl in *.
  destruct (String.eqb k "column") eqn:E; [|done].
  apply String.eqb_eq in E. congruence.
Qed.

Lemma NoDup_keys_split (k : string) (v : value) (pre post : py_dict) :
  NoDup (map fst (pre ++ (k, v) :: post)) ->
  Forall (fun kv => fst kv <> k) pre /\ Forall (fun kv => fst kv <> k) post.
Proof.
  rewrite map_app. simpl. intros Hnd.
  apply NoDup_app in Hnd as (_ & Hpre & Hpost).
  apply NoDup_cons in Hpost as [Hpost _].
  split; apply Forall_forall; intros [a x] Hin; simpl; intros ->.
  - apply (Hpre k); [|left].
    apply list_elem_of_In, in_map_iff. exists (k, x). split; [done|].
    by apply list_elem_of_In.
  - apply Hpost. apply list_elem_of_In, in_map_iff. exists (k, x). split; [done|].
    by apply list_elem_of_In.
Qed.

Example build_kwargs_string_column_first :
  _build_kwargs_string rule_column_first = "'age', min_value=0, strict=True".
Proof. reflexivity. Qed.

(** C1 on the code: the comment in [_build_kwargs_string] says that the
    column is made a positional argument, and the claim places it first; for
    a rule whose mapping has [column] after another parameter the code
    returns the quoted literal after that parameter, where a positional
    argument cannot stand. *)
Theorem C1_column_not_moved_first :
  dict_get "column" (kwargs rule_column_last) = Some (VStr "age") /\
  _build_kwargs_string rule_column_last = "min_value=0, 'age'" /\
  String.prefix (positional_fragment (VStr "age"))
    (_build_kwargs_string rule_column_last) = false.
Proof. repeat split. Qed.

(** X1: what the code does for every rule: the value of [column] is rendered as
    a bare quoted literal at the place [column] has in the parameter
    mapping; every other parameter is rendered as [name=value] (quoted when
    a string) and all fragments keep the order of the mapping.  When
    [column] is the first key, the quoted literal is first. *)
Lemma build_kwargs_string_in_mapping_order
    (expectation : ExpectationConfiguration) (pre post : py_dict) (v : value) :
  kwargs expectation = (pre ++ ("column", v) :: post)%list ->
  NoDup (map fst (kwargs expectation)) ->
  _build_kwargs_string expectation =
    String.concat ", "
      (map named_fragment pre ++ positional_fragment v :: map named_fragment post)
  /\ (pre = [] ->
      exists rest, _build_kwargs_string expectation = positional_fragment v +:+ rest).
Proof.
  intros Hk Hnd. rewrite Hk in Hnd.
  destruct (NoDup_keys_split _ _ _ _ Hnd) as [Hpre Hpost].
  assert (Heq : _build_kwargs_string expectation =
    String.concat ", "
      (map named_fragment pre ++ positional_fragment v :: map named_fragment post)).
  { unfold _build_kwargs_string. rewrite Hk, kwargs_loop_map. simpl.
    rewrite map_app. simpl.
    by rewrite (kwarg_fragment_named pre Hpre), (kwarg_fragment_named post Hpost). }
  split; [exact Heq|].
  intros ->. rewrite Heq. simpl.
  destruct (map named_fragment post); eauto.
  exists "". by rewrite append_empty_r.
Qed.

Lemma build_kwargs_string_in_mapping_order_example :
  _build_kwargs_string rule_column_last =
    String.concat ", "
      (map named_fragment [("min_value", VInt 0)]
         ++ positional_fragment (VStr "age") :: map named_fragment [])
  /\ _build_kwargs_string rule_column_first =
    String.concat ", "
      (map named_fragment []
         ++ positional_fragment (VStr "age")
         :: map named_fragment [("min_value", VInt 0); ("strict", VBool true)]).
Proof.
  split.
  - apply (build_kwargs_string_in_mapping_order rule_column_last
             [("min_value", VInt 0)] [] (VStr "age")).
    + reflexivity.
    + apply (bool_decide_unpack _). by vm_compute.
  - apply (build_kwargs_string_in_mapping_order rule_column_first
             [] [("min_value", VInt 0); ("strict", VBool true)] (VStr "age")).
    + reflexivity.
    + apply (bool_decide_unpack _). by vm_compute.
Defined.

(** ** MetaFormatter *)

(** Running a computation of [M]: unfold the monad, then compute. *)
Ltac run := unfold bind, ret, raise, lift, deref, assign, alloc, read_heap; simpl.

Arguments dict_get : simpl never.

Arguments dict_mem : simpl never.

Arguments dict_set : simpl never.

Arguments dict_pop : simpl never.

Arguments py_repr : simpl never.

Arguments join : simpl never.

Lemma world_eta (w : world) : World (heap w) (_notebook w) = w.
Proof. by destruct w. Qed.

(** What [_build_meta_arguments] does to the store and what it returns, in
    one equation. *)
Lemma build_meta_arguments_run (w : world) (l : loc) (o : pyobj) :
  heap w !! l = Some o ->
  _build_meta_arguments (Some l) w =
    (World (<[l := PyObj (obj_class o) (dict_pop profiler (obj_items o))]> (heap w))
           (_notebook w),
     Ok (if is_empty (dict_pop profiler (obj_items o)) then ""
         else ", meta=" +:+ py_repr (VDict (dict_pop profiler (obj_items o))))).
Proof.
  intros Hl. destruct o as [c items]. unfold _build_meta_arguments. run.
  rewrite Hl. simpl.
  destruct items as [|kv items].
  - simpl. rewrite insert_id by done. by rewrite world_eta.
  - simpl is_empty. cbv iota.
    destruct (dict_mem profiler (kv :: items)) eqn:Hmem; run.
    + rewrite lookup_insert_eq. simpl.
      by destruct (dict_pop profiler (kv :: items)).
    + rewrite Hl. simpl.
      rewrite (dict_pop_absent _ _ Hmem). simpl. rewrite insert_id by done. by rewrite world_eta.
Qed.

(** C2, as stated, fails: after the call the caller's own mapping has lost
    the profiler key. *)
Lemma C2_caller_mapping_changed :
  heap world_with_meta !! 1%positive = Some (PyObj ClsDict profiled_meta) /\
  heap (fst (_build_meta_arguments (Some 1%positive) world_with_meta)) !! 1%positive
    = Some (PyObj ClsDict [("notes", VStr "ok")]) /\
  heap (fst (_build_meta_arguments (Some 1%positive) world_with_meta)) !! 1%positive
    <> heap world_with_meta !! 1%positive.
Proof.
  assert (H : heap world_with_meta !! 1%positive = Some (PyObj ClsDict profiled_meta))
    by apply lookup_singleton_eq.
  rewrite (build_meta_arguments_run _ _ _ H). cbn [fst heap].
  rewrite lookup_insert_eq, H.
  split; [done|]. split; [done|]. vm_compute. discriminate.
Qed.

(** C2, amended: the profiler key is removed from the caller's own mapping,
    in place.  After the call the mapping holds every other entry with its
    value, in the same order; it is unchanged when it has no profiler key;
    no other object of the store and no cell is touched. *)
Theorem C2_build_meta_arguments_pops_in_place (w : world) (l : loc) (o : pyobj) :
  heap w !! l = Some o ->
  let w' := fst (_build_meta_arguments (Some l) w) in
  heap w' = <[l := PyObj (obj_class o) (dict_pop profiler (obj_items o))]> (heap w)
  /\ (forall k, k <> profiler ->
        dict_get k (dict_pop profiler (obj_items o)) = dict_get k (obj_items o))
  /\ (NoDup (map fst (obj_items o)) ->
        dict_pop profiler (obj_items o) =
          List.filter (fun kv => negb (String.eqb (fst kv) profiler)) (obj_items o))
  /\ (dict_mem profiler (obj_items o) = false -> w' = w)
  /\ (forall l', l' <> l -> heap w' !! l' = heap w !! l')
  /\ _notebook w' = _notebook w.
Proof.
  intros Hl w'. subst w'. rewrite (build_meta_arguments_run _ _ _ Hl). simpl.
  split; [done|]. split; [intros k Hk; by apply dict_get_pop_ne|].
  split; [apply dict_pop_filter|].
  split; [|split; [|done]].
  - intros Hmem. rewrite (dict_pop_absent _ _ Hmem).
    destruct o. simpl. rewrite insert_id by done. apply world_eta.
  - intros l' Hne. by rewrite lookup_insert_ne.
Qed.

Lemma C2_build_meta_arguments_pops_in_place_witness :
  heap (fst (_build_meta_arguments (Some 1%positive) world_with_meta))
    = <[1%positive := PyObj ClsDict (dict_pop profiler profiled_meta)]>
        (heap world_with_meta).
Proof.
  apply (C2_build_meta_arguments_pops_in_place world_with_meta 1%positive
           (PyObj ClsDict profiled_meta)).
  reflexivity.
Defined.

(** C6: [_build_meta_arguments] returns the empty string for an absent or
    empty mapping and for a mapping whose only key is the profiler key;
    otherwise it returns [", meta="] followed by the dict literal of the
    mapping without the profiler key. *)
Theorem C6_build_meta_arguments_text (w : world) (l : loc) (o : pyobj) :
  heap w !! l = Some o ->
  NoDup (map fst (obj_items o)) ->
  let remaining :=
    List.filter (fun kv => negb (String.eqb (fst kv) profiler)) (obj_items o) in
  snd (_build_meta_arguments None w) = Ok ""
  /\ (obj_items o = [] -> snd (_build_meta_arguments (Some l) w) = Ok "")
  /\ (forall v, obj_items o = [(profiler, v)] ->
        snd (_build_meta_arguments (Some l) w) = Ok "")
  /\ (obj_items o <> [] -> (forall v, obj_items o <> [(profiler, v)]) ->
        remaining <> [] /\
        snd (_build_meta_arguments (Some l) w)
          = Ok (", meta=" +:+ py_repr (VDict remaining)))
  /\ (forall m n, obj_items o = [(profiler, m); ("notes", VStr n)] ->
        snd (_build_meta_arguments (Some l) w)
          = Ok (", meta={'notes': " +:+ repr_str n +:+ "}")).
Proof.
  intros Hl Hnd remaining.
  rewrite (build_meta_arguments_run _ _ _ Hl). simpl.
  rewrite (dict_pop_filter _ _ Hnd). fold remaining.
  split; [done|].
  split; [intros E; subst remaining; by rewrite E|].
  split; [intros v E; subst remaining; by rewrite E|].
  split.
  - intros Hne Hnp.
    assert (Hrem : remaining <> []).
    { subst remaining. destruct (obj_items o) as [|[k v] [|kv2 items]] eqn:E.
      - done.
      - simpl. destruct (String.eqb k profiler) eqn:Ek; simpl; [|done].
        apply String.eqb_eq in Ek. subst k. by destruct (Hnp v).
      - apply NoDup_cons in Hnd as [Hk _]. simpl.
        destruct (String.eqb k profiler) eqn:Ek; simpl; [|done].
        apply String.eqb_eq in Ek. subst k.
        destruct kv2 as [k2 v2]. simpl.
        destruct (String.eqb k2 profiler) eqn:Ek2; simpl; [|done].
        apply String.eqb_eq in Ek2. subst k2. exfalso. apply Hk. simpl. left. }
    split; [done|]. by destruct remaining.
  - intros m n E. subst remaining. by rewrite E.
Qed.

Lemma C6_build_meta_arguments_text_witness :
  snd (_build_meta_arguments (Some 1%positive) world_with_meta)
    = Ok ", meta={'notes': 'ok'}".
Proof.
  pose proof (C6_build_meta_arguments_text world_with_meta 1%positive
                (PyObj ClsDict profiled_meta)) as H.
  destruct H as (_ & _ & _ & _ & H).
  - reflexivity.
  - apply (bool_decide_unpack _). by vm_compute.
  - exact (H _ _ eq_refl).
Defined.

(** ** BatchSourceResolver *)

Lemma dict_get_set_eq (k : string) (v : value) (d : py_dict) :
  dict_get k (dict_set k v d) = Some v.
Proof. apply od_get_set_eq, String.eqb_refl. Qed.

Lemma dict_set_keys (k : string) (v : value) (d : py_dict) :
  dict_mem k d = true -> map fst (dict_set k v d) = map fst d.
Proof. apply od_set_keys. Qed.

Lemma dict_get_mem (k : string) (v : value) (d : py_dict) :
  dict_get k d = Some v -> dict_mem k d = true /\ is_empty d = false.
Proof.
  unfold dict_mem, od_mem, dict_get. intros H. rewrite H. split; [done|].
  by destruct d.
Qed.

Lemma join_relative (p : string) :
  isabs p = false -> join ".." [".."; p] = "../../" +:+ p.
Proof.
  unfold isabs. intros H.
  change (join ".." [".."; p]) with (join_step "../.." p).
  unfold join_step. by rewrite H.
Qed.

Lemma up_two_levels_ne (p : string) : "../../" +:+ p <> p.
Proof.
  intros H. apply (f_equal String.length) in H.
  change ("../../" +:+ p) with
    (String "." (String "." (String "/" (String "." (String "." (String "/" p))))))
    in H.
  simpl in H. lia.
Qed.

(** A relative path in a plain [dict]: the entry is rewritten in the object
    that was passed. *)
Lemma fix_path_dict_relative (w : world) (l : loc) (items : py_dict) (p : string) :
  heap w !! l = Some (PyObj ClsDict items) ->
  dict_get "path" items = Some (VStr p) ->
  isabs p = false ->
  _fix_path_in_batch_kwargs (Some l) w =
    (World (<[l := PyObj ClsDict (dict_set "path" (VStr ("../../" +:+ p)) items)]>
              (heap w)) (_notebook w),
     Ok (Some l)).
Proof.
  intros Hl Hp Habs. destruct (dict_get_mem _ _ _ Hp) as [Hmem Hne].
  unfold _fix_path_in_batch_kwargs. run. rewrite Hl. simpl. rewrite Hl. simpl.
  rewrite Hne, Hmem, Hp. simpl. rewrite Habs. simpl.
  by rewrite (join_relative _ Habs).
Qed.

Lemma fix_path_dict_absolute (w : world) (l : loc) (items : py_dict) (p : string) :
  heap w !! l = Some (PyObj ClsDict items) ->
  dict_get "path" items = Some (VStr p) ->
  isabs p = true ->
  _fix_path_in_batch_kwargs (Some l) w = (w, Ok (Some l)).
Proof.
  intros Hl Hp Habs. destruct (dict_get_mem _ _ _ Hp) as [Hmem Hne].
  unfold _fix_path_in_batch_kwargs. run. rewrite Hl. simpl. rewrite Hl. simpl.
  rewrite Hne, Hmem, Hp. simpl. by rewrite Habs.
Qed.

(** A [BatchKwargs] object is copied into a new plain [dict] first. *)
Lemma fix_path_batch_kwargs (w : world) (l : loc) (items : py_dict) (p : string) :
  heap w !! l = Some (PyObj ClsBatchKwargs items) ->
  dict_get "path" items = Some (VStr p) ->
  _fix_path_in_batch_kwargs (Some l) w =
    (World (<[fresh (dom (heap w)) :=
               PyObj ClsDict (if isabs p then items
                              else dict_set "path" (VStr ("../../" +:+ p)) items)]>
              (heap w)) (_notebook w),
     Ok (Some (fresh (dom (heap w))))).
Proof.
  intros Hl Hp. destruct (dict_get_mem _ _ _ Hp) as [Hmem Hne].
  unfold _fix_path_in_batch_kwargs. run. rewrite Hl. simpl.
  rewrite lookup_insert_eq. simpl. rewrite Hne, Hmem, Hp. simpl.
  destruct (isabs p) eqn:Habs; simpl; [done|].
  by rewrite insert_insert_eq, (join_relative _ Habs).
Qed.

(** C5: the mapping returned by [_fix_path_in_batch_kwargs] holds, under
    [path], the original path behind two parent-directory steps when that
    path is relative, and the original path when it is absolute; every other
    entry and the order of the keys are those of the mapping passed in. *)
Theorem C5_fix_path_in_batch_kwargs (w : world) (l : loc) (o : pyobj) (p : string) :
  heap w !! l = Some o ->
  dict_get "path" (obj_items o) = Some (VStr p) ->
  exists l' items',
    snd (_fix_path_in_batch_kwargs (Some l) w) = Ok (Some l')
    /\ heap (fst (_fix_path_in_batch_kwargs (Some l) w)) !! l'
         = Some (PyObj ClsDict items')
    /\ dict_get "path" items'
         = Some (VStr (if isabs p then p else "../../" +:+ p))
    /\ (isabs p = true -> items' = obj_items o)
    /\ (forall k, k <> "path" -> dict_get k items' = dict_get k (obj_items o))
    /\ map fst items' = map fst (obj_items o).
Proof.
  intros Hl Hp. destruct o as [c items]. simpl in *.
  destruct (dict_get_mem _ _ _ Hp) as [Hmem _].
  assert (Hset : forall k, k <> "path" ->
            dict_get k (dict_set "path" (VStr ("../../" +:+ p)) items)
              = dict_get k items)
    by (intros k Hk; by apply dict_get_set_ne).
  destruct c.
  - destruct (isabs p) eqn:Habs.
    + exists l, items. rewrite (fix_path_dict_absolute _ _ _ _ Hl Hp Habs). simpl.
      by repeat split.
    + exists l, (dict_set "path" (VStr ("../../" +:+ p)) items).
      rewrite (fix_path_dict_relative _ _ _ _ Hl Hp Habs). simpl.
      rewrite lookup_insert_eq, dict_get_set_eq, (dict_set_keys _ _ _ Hmem).
      by repeat split.
  - eexists (fresh (dom (heap w))), _.
    rewrite (fix_path_batch_kwargs _ _ _ _ Hl Hp). simpl.
    rewrite lookup_insert_eq. split; [done|]. split; [done|].
    destruct (isabs p) eqn:Habs.
    + by repeat split.
    + rewrite dict_get_set_eq, (dict_set_keys _ _ _ Hmem). by repeat split.
Qed.

Lemma C5_fix_path_in_batch_kwargs_witness :
  (exists l' items',
     snd (_fix_path_in_batch_kwargs (Some 1%positive) world_relative) = Ok (Some l')
     /\ heap (fst (_fix_path_in_batch_kwargs (Some 1%positive) world_relative)) !! l'
          = Some (PyObj ClsDict items')
     /\ dict_get "path" items' = Some (VStr "../../data/file.csv"))
  /\ (exists l' items',
     snd (_fix_path_in_batch_kwargs (Some 1%positive) world_absolute) = Ok (Some l')
     /\ heap (fst (_fix_path_in_batch_kwargs (Some 1%positive) world_absolute)) !! l'
          = Some (PyObj ClsDict items')
     /\ dict_get "path" items' = Some (VStr "/abs/file.csv")).
Proof.
  split.
  - destruct (C5_fix_path_in_batch_kwargs world_relative 1%positive
                (PyObj ClsDict [("path", VStr "data/file.csv")]) "data/file.csv")
      as (l' & items' & H1 & H2 & H3 & _).
    + reflexivity.
    + reflexivity.
    + exists l', items'. by repeat split.
  - destruct (C5_fix_path_in_batch_kwargs world_absolute 1%positive
                (PyObj ClsDict [("path", VStr "/abs/file.csv")]) "/abs/file.csv")
      as (l' & items' & H1 & H2 & H3 & _).
    + reflexivity.
    + reflexivity.
    + exists l', items'. by repeat split.
Defined.

Section ResolverFacts.

Variable get_citations : gmap loc pyobj -> ExpectationSuite -> list citation.

Variable BatchKwargs_is_dict : bool.

Local Abbreviation resolve := (get_batch_kwargs get_citations BatchKwargs_is_dict).

Local Abbreviation is_mapping := (isinstance_dict BatchKwargs_is_dict).

(** C3: the order in which [get_batch_kwargs] looks for the descriptor.
    (1) A mapping passed by the caller is normalized and returned.
    (2) Otherwise, when the suite has no citations, the argument is
        normalized and returned.
    (3) Otherwise, when no citation carries batch_kwargs, the result is
        [None] and nothing changes.
    (4) Otherwise the batch_kwargs of the last citation that carries them
        is normalized and returned. *)
Theorem C3_get_batch_kwargs_order (suite : ExpectationSuite)
    (batch_kwargs : option loc) (w : world) :
  (is_mapping (heap w) batch_kwargs = true ->
     resolve suite batch_kwargs w = _fix_path_in_batch_kwargs batch_kwargs w)
  /\ (is_mapping (heap w) batch_kwargs = false ->
      meta_citations suite = None \/ meta_citations suite = Some [] ->
      resolve suite batch_kwargs w = _fix_path_in_batch_kwargs batch_kwargs w)
  /\ (forall c cs,
      is_mapping (heap w) batch_kwargs = false ->
      meta_citations suite = Some (c :: cs) ->
      get_citations (heap w) suite = [] ->
      resolve suite batch_kwargs w = (w, Ok None))
  /\ (forall c cs earlier recent,
      is_mapping (heap w) batch_kwargs = false ->
      meta_citations suite = Some (c :: cs) ->
      get_citations (heap w) suite = (earlier ++ [recent])%list ->
      resolve suite batch_kwargs w =
        _fix_path_in_batch_kwargs (citation_batch_kwargs recent) w).
Proof.
  unfold get_batch_kwargs. run.
  split; [by intros ->|].
  split; [by intros -> [-> | ->]|].
  split.
  - intros c cs -> -> ->. done.
  - intros c cs earlier recent -> -> ->. by rewrite last_snoc.
Qed.

(** C10: a plain [dict] passed as the override, with a relative [path], is
    itself rewritten: after [_fix_path_in_batch_kwargs], and after
    [get_batch_kwargs], the caller's object holds the prefixed path, and
    that object is what is returned. *)
Theorem C10_override_rewritten_in_place (suite : ExpectationSuite) (w : world)
    (l : loc) (items : py_dict) (p : string) :
  heap w !! l = Some (PyObj ClsDict items) ->
  dict_get "path" items = Some (VStr p) ->
  isabs p = false ->
  let w' := World (<[l := PyObj ClsDict
                            (dict_set "path" (VStr ("../../" +:+ p)) items)]>
                     (heap w)) (_notebook w) in
  _fix_path_in_batch_kwargs (Some l) w = (w', Ok (Some l))
  /\ resolve suite (Some l) w = (w', Ok (Some l))
  /\ (exists items',
        heap w' !! l = Some (PyObj ClsDict items')
        /\ dict_get "path" items' = Some (VStr ("../../" +:+ p)))
  /\ heap w' !! l <> heap w !! l.
Proof.
  intros Hl Hp Habs w'.
  pose proof (fix_path_dict_relative _ _ _ _ Hl Hp Habs) as Hfix.
  split; [exact Hfix|]. split.
  - unfold get_batch_kwargs. run. by rewrite Hl.
  - subst w'. simpl. rewrite lookup_insert_eq, Hl. split.
    + eexists. split; [done|]. apply dict_get_set_eq.
    + intros H. injection H as H.
      apply (f_equal (dict_get "path")) in H.
      rewrite dict_get_set_eq, Hp in H. injection H as H.
      by apply up_two_levels_ne in H.
Qed.

End ResolverFacts.

Lemma C3_get_batch_kwargs_order_witness :
  get_batch_kwargs citations_with_batch_kwargs true
      (Suite "mysuite" [] None) (Some 1%positive) world_relative
    = _fix_path_in_batch_kwargs (Some 1%positive) world_relative
  /\ get_batch_kwargs citations_with_batch_kwargs true
      (Suite "mysuite" [] (Some [])) None world_relative
    = _fix_path_in_batch_kwargs None world_relative
  /\ get_batch_kwargs citations_with_batch_kwargs true
      (Suite "mysuite" [] (Some [Citation "2020-01-01" None])) None world_relative
    = (world_relative, Ok None)
  /\ get_batch_kwargs citations_with_batch_kwargs true
      (Suite "mysuite" [] (Some [Citation "2020-01-01" (Some 1%positive)]))
      None world_relative
    = _fix_path_in_batch_kwargs (Some 1%positive) world_relative.
Proof.
  split; [|split; [|split]].
  - destruct (C3_get_batch_kwargs_order citations_with_batch_kwargs true
                (Suite "mysuite" [] None) (Some 1%positive) world_relative)
      as (H & _).
    apply H. reflexivity.
  - destruct (C3_get_batch_kwargs_order citations_with_batch_kwargs true
                (Suite "mysuite" [] (Some [])) None world_relative)
      as (_ & H & _).
    apply H; [reflexivity|by right].
  - destruct (C3_get_batch_kwargs_order citations_with_batch_kwargs true
                (Suite "mysuite" [] (Some [Citation "2020-01-01" None])) None
                world_relative)
      as (_ & _ & H & _).
    eapply H; reflexivity.
  - destruct (C3_get_batch_kwargs_order citations_with_batch_kwargs true
                (Suite "mysuite" [] (Some [Citation "2020-01-01" (Some 1%positive)]))
                None world_relative)
      as (_ & _ & _ & H).
    apply (H (Citation "2020-01-01" (Some 1%positive)) [] []
             (Citation "2020-01-01" (Some 1%positive)));
      [reflexivity|reflexivity|by vm_compute].
Defined.

Lemma C10_override_rewritten_in_place_witness :
  get_batch_kwargs citations_with_batch_kwargs true
      (Suite "mysuite" [] None) (Some 1%positive) world_relative
    = (World (<[1%positive :=
                 PyObj ClsDict
                   (dict_set "path" (VStr "../../data/file.csv")
                      [("path", VStr "data/file.csv")])]>
                (heap world_relative)) None,
       Ok (Some 1%positive)).
Proof.
  apply (C10_override_rewritten_in_place citations_with_batch_kwargs true
           (Suite "mysuite" [] None) world_relative
           1%positive [("path", VStr "data/file.csv")] "data/file.csv").
  - reflexivity.
  - reflexivity.
  - reflexivity.
Defined.

Lemma key_eqb_norm (a b : value) :
  key_eqb a b = true <->
  hashable a = true /\ hashable b = true /\ key_norm a = key_norm b.
Proof.
  destruct a as [|[]|x|s| |], b as [|[]|y|t| |]; cbn -[Z.eqb String.eqb];
    rewrite ?Z.eqb_eq, ?String.eqb_eq;
    split; try (intros (? & ? & ?)); try intros ?;
    try discriminate; try congruence; try done;
    try (repeat split; congruence).
Qed.

Arguments key_eqb : simpl never.

Arguments in_bucket : simpl never.

Lemma key_eqb_refl (a : value) : hashable a = true -> key_eqb a a = true.
Proof. intros H. by apply key_eqb_norm. Qed.

Lemma key_eqb_sym (a b : value) : key_eqb a b = key_eqb b a.
Proof.
  destruct (key_eqb a b) eqn:E1, (key_eqb b a) eqn:E2; try done.
  - apply key_eqb_norm in E1 as (? & ? & ?).
    rewrite <- E2. symmetry. by apply key_eqb_norm.
  - apply key_eqb_norm in E2 as (? & ? & ?).
    rewrite <- E1. by apply key_eqb_norm.
Qed.

Lemma key_eqb_trans (a b c : value) :
  key_eqb a b = true -> key_eqb b c = true -> key_eqb a c = true.
Proof.
  intros (? & ? & ?)%key_eqb_norm (? & ? & ?)%key_eqb_norm.
  apply key_eqb_norm. repeat split; congruence.
Qed.

(** Equal keys cannot be told apart by a third key. *)
Lemma key_eqb_congr (a b c : value) :
  key_eqb a b = true -> key_eqb a c = key_eqb b c.
Proof.
  intros Hab. destruct (key_eqb b c) eqn:E.
  - by apply (key_eqb_trans a b c).
  - destruct (key_eqb a c) eqn:E'; [|done].
    rewrite <- E. symmetry. rewrite key_eqb_sym in Hab.
    by apply (key_eqb_trans b a c).
Qed.

Lemma key_in_existsb (c : value) (d : grouped) :
  key_in c d = existsb (fun k => key_eqb k c) (map fst d).
Proof.
  unfold key_in, od_mem. induction d as [|[k b] d IH]; simpl; [done|].
  by destruct (key_eqb k c).
Qed.

Lemma key_in_false (c : value) (d : grouped) :
  key_in c d = false <-> Forall (fun kb => key_eqb (fst kb) c = false) d.
Proof.
  rewrite key_in_existsb. induction d as [|[k b] d IH]; simpl.
  - split; [constructor|done].
  - rewrite orb_false_iff, IH. split.
    + intros [? ?]. by constructor.
    + intros H. apply Forall_cons in H as [? ?]. done.
Qed.

Lemma first_seen_subset (l : list value) (x : value) :
  In x (first_seen l) -> In x l.
Proof.
  revert x. induction l as [|c l IH]; simpl; [done|].
  intros x [->|H]; [by left|]. right. apply IH.
  by apply filter_In in H as [H _].
Qed.

Lemma filter_absorb {A} (P Q : A -> bool) (l : list A) :
  (forall x, P x = true -> Q x = true) ->
  List.filter P (List.filter Q l) = List.filter P l.
Proof.
  intros H. induction l as [|x l IH]; simpl; [done|].
  destruct (Q x) eqn:EQ; simpl.
  - by rewrite IH.
  - destruct (P x) eqn:EP; [|done]. apply H in EP. congruence.
Qed.

Lemma filter_comm {A} (P Q : A -> bool) (l : list A) :
  List.filter P (List.filter Q l) = List.filter Q (List.filter P l).
Proof.
  induction l as [|x l IH]; simpl; [done|].
  destruct (P x) eqn:EP, (Q x) eqn:EQ; simpl; rewrite ?EP, ?EQ, ?IH; done.
Qed.

Lemma filter_and {A} (P Q : A -> bool) (l : list A) :
  List.filter (fun x => P x && Q x) l = List.filter Q (List.filter P l).
Proof.
  induction l as [|x l IH]; simpl; [done|].
  destruct (P x) eqn:EP; simpl; [|done].
  destruct (Q x); by rewrite IH.
Qed.

(** Filtering with a test that does not separate equal keys commutes with
    taking first occurrences. *)
Lemma first_seen_filter (P : value -> bool) (l : list value) :
  (forall x y, key_eqb x y = true -> P x = P y) ->
  List.filter P (first_seen l) = first_seen (List.filter P l).
Proof.
  intros HP. induction l as [|c l IH]; simpl; [done|].
  destruct (P c) eqn:Ec; simpl.
  - by rewrite filter_comm, IH.
  - rewrite <- IH. apply filter_absorb.
    intros x Hx. destruct (key_eqb c x) eqn:E; [|done].
    apply HP in E. congruence.
Qed.

Lemma key_in_cons (c k : value) (b : list ExpectationConfiguration) (d : grouped) :
  key_in c ((k, b) :: d) = key_eqb k c || key_in c d.
Proof. unfold key_in, od_mem. simpl. by destruct (key_eqb k c). Qed.

Lemma key_in_app (c : value) (d d' : grouped) :
  key_in c (d ++ d') = key_in c d || key_in c d'.
Proof.
  induction d as [|[k b] d IH]; [done|].
  change (((k, b) :: d) ++ d')%list with ((k, b) :: (d ++ d'))%list.
  by rewrite !key_in_cons, IH, orb_assoc.
Qed.

Lemma append_to_keys (c : value) (exp : ExpectationConfiguration) (d : grouped) :
  map fst (append_to c exp d) = map fst d.
Proof. unfold append_to. rewrite map_map. by apply map_ext. Qed.

Lemma append_to_absent (c : value) (exp : ExpectationConfiguration) (d : grouped) :
  key_in c d = false -> append_to c exp d = d.
Proof.
  intros H. apply key_in_false in H. unfold append_to.
  induction H as [|[k b] d Hk _ IH]; simpl; [done|].
  simpl in Hk. by rewrite Hk, IH.
Qed.

Lemma bucket_append_present (c : value) (exp : ExpectationConfiguration)
    (d : grouped) :
  key_in c d = true ->
  distinct_keys (map fst d) = true ->
  bucket_append c exp d = Ok (append_to c exp d).
Proof.
  induction d as [|[k b] d IH]; [done|].
  rewrite key_in_cons. simpl. intros Hin Hd.
  apply andb_prop in Hd as [Hfa Hd].
  destruct (key_eqb k c) eqn:E.
  - rewrite append_to_absent; [done|].
    apply key_in_false, Forall_forall. intros [k' b'] Hk'. simpl.
    rewrite forallb_forall in Hfa.
    assert (Hin' : In k' (map fst d)).
    { apply in_map_iff. exists (k', b'). split; [done|]. by apply list_elem_of_In. }
    apply Hfa in Hin'. apply negb_true_iff in Hin'.
    rewrite key_eqb_sym, <- (key_eqb_congr k c k' E). done.
  - simpl in Hin. by rewrite (IH Hin Hd).
Qed.

Lemma bucket_append_new (c : value) (exp : ExpectationConfiguration)
    (d : grouped) :
  key_in c d = false ->
  key_eqb c c = true ->
  bucket_append c exp (d ++ [(c, [])]) = Ok (d ++ [(c, [exp])])%list.
Proof.
  intros Hin Hc. induction d as [|[k b] d IH]; simpl.
  - by rewrite Hc.
  - rewrite key_in_cons in Hin. apply orb_false_iff in Hin as [Hk Hin].
    by rewrite Hk, (IH Hin).
Qed.

Lemma distinct_keys_snoc (l : list value) (c : value) :
  distinct_keys l = true ->
  forallb (fun k => negb (key_eqb k c)) l = true ->
  distinct_keys (l ++ [c]) = true.
Proof.
  induction l as [|k l IH]; simpl; [done|].
  intros [Hfa Hd]%andb_prop [Hk Hl]%andb_prop.
  rewrite forallb_app, Hfa, (IH Hd Hl). simpl. by rewrite Hk.
Qed.

(** One round of the loop, for a rule filed under [bucket_key exp]. *)
Lemma group_loop_cons (exp : ExpectationConfiguration)
    (rest : list ExpectationConfiguration) (acc : grouped) :
  hashable (bucket_key exp) = true ->
  key_in table_key acc = true ->
  group_loop (exp :: rest) acc =
    match bucket_append (bucket_key exp) exp
            (if key_in (bucket_key exp) acc then acc
             else (acc ++ [(bucket_key exp, [])])%list) with
    | Ok d' => group_loop rest d'
    | Raise e => Raise e
    end.
Proof.
  unfold bucket_key, column_of. intros Hh Ht. simpl.
  change (dict_mem "column" (kwargs exp))
    with (match dict_get "column" (kwargs exp) with
          | Some _ => true | None => false end).
  change (od_mem key_eqb) with key_in.
  destruct (dict_get "column" (kwargs exp)) as [col|].
  - rewrite Hh.
    destruct (key_in col acc) eqn:Hin; simpl; [done|].
    by rewrite (od_set_absent key_eqb col [] acc Hin).
  - by rewrite Ht.
Qed.

(** The loop, from any state whose keys are distinct and include the
    table key: every bucket present receives its rules in suite order, and
    the keys not yet present are added in order of first appearance. *)
Lemma group_loop_spec (exps : list ExpectationConfiguration) :
  forall acc : grouped,
  Forall (fun e => hashable (bucket_key e) = true) exps ->
  key_in table_key acc = true ->
  distinct_keys (map fst acc) = true ->
  group_loop exps acc =
    Ok (map (with_rules exps) acc ++
        map (new_bucket exps)
          (first_seen
             (List.filter (fun c => negb (key_in c acc)) (map bucket_key exps))))%list.
Proof.
  induction exps as [|exp rest IH]; intros acc Hh Ht Hd.
  - simpl. rewrite app_nil_r. f_equal. symmetry.
    rewrite <- (map_id acc) at 2. apply map_ext. intros [k b].
    unfold with_rules. simpl. by rewrite app_nil_r.
  - apply Forall_cons in Hh as [Hc Hh].
    rewrite (group_loop_cons _ _ _ Hc Ht).
    set (c := bucket_key exp) in *.
    destruct (key_in c acc) eqn:Hin.
    + rewrite (bucket_append_present _ _ _ Hin Hd).
      rewrite IH; [|done| |by rewrite append_to_keys].
      2:{ rewrite key_in_existsb, append_to_keys, <- key_in_existsb. done. }
      f_equal.
      assert (Hkeys : forall x, key_in x (append_to c exp acc) = key_in x acc).
      { intros x. by rewrite !key_in_existsb, append_to_keys. }
      simpl map. fold c. simpl List.filter. rewrite Hin. simpl negb. cbv iota.
      f_equal.
      * unfold append_to. rewrite map_map. apply map_ext. intros [k b].
        unfold with_rules. simpl. change (in_bucket k exp) with (key_eqb k c).
        destruct (key_eqb k c); [|done]. by rewrite <- app_assoc.
      * rewrite (List.filter_ext _ (fun x => negb (key_in x acc)))
          by (intros x; by rewrite Hkeys).
        apply map_ext_in. intros k Hk.
        apply first_seen_subset, filter_In in Hk as [_ Hk].
        apply negb_true_iff in Hk.
        unfold new_bucket. f_equal. simpl. change (in_bucket k exp) with (key_eqb k c).
        destruct (key_eqb k c) eqn:E; [|done].
        exfalso. rewrite key_in_existsb in Hin, Hk.
        apply existsb_exists in Hin as (k0 & Hk0 & Hk0c).
        assert (Hf : existsb (fun k' => key_eqb k' k) (map fst acc) = true).
        { apply existsb_exists. exists k0. split; [done|].
          rewrite key_eqb_sym in E. by apply (key_eqb_trans k0 c k). }
        congruence.
    + assert (Hcc : key_eqb c c = true) by by apply key_eqb_refl.
      rewrite (bucket_append_new _ _ _ Hin Hcc).
      rewrite IH; [|done| |].
      2:{ by rewrite key_in_app, Ht. }
      2:{ rewrite map_app. apply distinct_keys_snoc; [done|].
          apply forallb_forall. intros k Hk. apply negb_true_iff.
          apply key_in_false in Hin. rewrite Forall_forall in Hin.
          apply in_map_iff in Hk as ([k' b'] & <- & Hk).
          apply (Hin (k', b')). by apply list_elem_of_In. }
      f_equal.
      simpl map. fold c. simpl List.filter. rewrite Hin. simpl negb. cbv iota.
      simpl first_seen. rewrite map_app. simpl map. rewrite <- app_assoc.
      f_equal; [|simpl; f_equal].
      * apply map_ext_in. intros [k b] Hk. unfold with_rules. simpl.
        change (in_bucket k exp) with (key_eqb k c).
        apply key_in_false in Hin. rewrite Forall_forall in Hin.
        apply list_elem_of_In in Hk. apply Hin in Hk. simpl in Hk. by rewrite Hk.
      * unfold with_rules, new_bucket. simpl.
        change (in_bucket c exp) with (key_eqb c c). by rewrite Hcc.
      * rewrite (List.filter_ext _
                   (fun x => negb (key_in x acc) && negb (key_eqb c x))).
        2:{ intros x. rewrite key_in_app, key_in_cons. unfold key_in at 3.
            unfold od_mem. simpl. by rewrite orb_false_r, negb_orb. }
        rewrite filter_and, <- first_seen_filter.
        2:{ intros x y Hxy. f_equal. rewrite !(key_eqb_sym c).
            by apply key_eqb_congr. }
        apply map_ext_in. intros k Hk. apply filter_In in Hk as [_ Hk].
        apply negb_true_iff in Hk.
        unfold new_bucket. f_equal. simpl. change (in_bucket k exp) with (key_eqb k c).
        by rewrite key_eqb_sym, Hk.
Qed.

Lemma table_bucket_filter (exps : list ExpectationConfiguration) :
  List.filter (fun c => negb (key_eqb table_key c)) (map bucket_key exps) =
  List.filter (fun c => negb (key_eqb table_key c)) (columns exps).
Proof.
  induction exps as [|e exps IH]; [done|].
  cbn [map columns List.filter]. unfold bucket_key at 1 2.
  destruct (column_of e) as [c|]; cbn [List.filter].
  - by rewrite IH.
  - exact IH.
Qed.

Example grouping_b_a_b :
  _get_expectations_by_column
    [rule_on "b" "expect_1"; rule_on "a" "expect_2"; rule_on "b" "expect_3"]
  = Ok [(table_key, []);
        (VStr "b", [rule_on "b" "expect_1"; rule_on "b" "expect_3"]);
        (VStr "a", [rule_on "a" "expect_2"])].
Proof. reflexivity. Qed.

(** C4 on the code: the claim has one bucket per column name, in the order
    in which each name is first seen.  For rules on the columns [a],
    [table_expectations], [b] (every rule has a [column] parameter, so there
    is no table-scope rule) the code returns the keys [table_expectations],
    [a], [b]: the column named like the table bucket gets no bucket of its
    own, its rule is filed in the table bucket, and the column buckets are
    [a], [b] where the first-seen column names are [a], [table_expectations],
    [b].  This is the key collision of C8. *)
Theorem C4_column_named_like_table_bucket_gets_no_bucket :
  columns rules_a_table_b = [VStr "a"; VStr "table_expectations"; VStr "b"]
  /\ first_seen (columns rules_a_table_b)
       = [VStr "a"; VStr "table_expectations"; VStr "b"]
  /\ table_scope_rules rules_a_table_b = []
  /\ _get_expectations_by_column rules_a_table_b
       = Ok [(table_key, [rule_on "table_expectations" "expect_2"]);
             (VStr "a", [rule_on "a" "expect_1"]);
             (VStr "b", [rule_on "b" "expect_3"])]
  /\ map fst [(VStr "a", [rule_on "a" "expect_1"]);
              (VStr "b", [rule_on "b" "expect_3"])]
       = [VStr "a"; VStr "b"].
Proof. repeat split. Qed.

Lemma fix_path_total (d : option loc) (w : world) :
  descriptor_ok (heap w) d = true ->
  exists h' d',
    _fix_path_in_batch_kwargs d w = (World h' (_notebook w), Ok d')
    /\ allocated h' d'.
Proof.
  destruct d as [l|]; simpl.
  - destruct (heap w !! l) as [[c items]|] eqn:Hl; [|done]. simpl.
    destruct (dict_get "path" items) as [v|] eqn:Hp.
    + destruct v as [| | |p| |]; try done. intros _.
      destruct c.
      * destruct (isabs p) eqn:Habs.
        -- exists (heap w), (Some l).
           rewrite (fix_path_dict_absolute _ _ _ _ Hl Hp Habs), world_eta.
           split; [done|]. simpl. by rewrite Hl.
        -- eexists _, (Some l).
           rewrite (fix_path_dict_relative _ _ _ _ Hl Hp Habs).
           split; [done|]. simpl. by rewrite lookup_insert_eq.
      * eexists _, (Some _). rewrite (fix_path_batch_kwargs _ _ _ _ Hl Hp).
        split; [done|]. simpl. by rewrite lookup_insert_eq.
    + intros _.
      assert (Hmem : dict_mem "path" items = false).
      { unfold dict_mem, od_mem. unfold dict_get in Hp. by rewrite Hp. }
      unfold _fix_path_in_batch_kwargs. run. rewrite Hl. simpl.
      destruct c; simpl.
      * rewrite Hl. simpl. rewrite Hmem, andb_false_r.
        exists (heap w), (Some l). rewrite world_eta. split; [done|].
        simpl. by rewrite Hl.
      * rewrite lookup_insert_eq. simpl. rewrite Hmem, andb_false_r.
        eexists _, (Some _). split; [done|]. simpl. by rewrite lookup_insert_eq.
  - intros _. exists (heap w), None. by rewrite world_eta.
Qed.

Section AssemblerFacts.

Variable get_citations : gmap loc pyobj -> ExpectationSuite -> list citation.

Variable BatchKwargs_is_dict : bool.

Lemma get_batch_kwargs_total (suite : ExpectationSuite)
    (batch_kwargs : option loc) (w : world) :
  descriptors_ok get_citations w suite batch_kwargs ->
  exists h' d,
    get_batch_kwargs get_citations BatchKwargs_is_dict suite batch_kwargs w
      = (World h' (_notebook w), Ok d)
    /\ allocated h' d.
Proof.
  intros [Hbk Hcs]. unfold get_batch_kwargs. run.
  destruct (isinstance_dict BatchKwargs_is_dict (heap w) batch_kwargs);
    [by apply fix_path_total|].
  destruct (meta_citations suite) as [[|c cs]|]; try by apply fix_path_total.
  destruct (last (get_citations (heap w) suite)) as [recent|] eqn:Hlast.
  - apply fix_path_total. rewrite Forall_forall in Hcs. apply Hcs.
    apply last_Some in Hlast as [l' ->].
    apply list_elem_of_In, in_or_app. right. by left.
  - exists (heap w), None. by rewrite world_eta.
Qed.

Lemma add_header_run (self : SuiteEditNotebookRenderer) (suite_name : string)
    (d : option loc) (h : gmap loc pyobj) (cells : list cell) :
  header_ok self = true ->
  allocated h d ->
  add_header self suite_name d (World h (Some cells)) =
    (World h (Some (cells ++ header_cells self suite_name (descriptor_items h d))%list),
     Ok tt).
Proof.
  unfold header_ok, add_header, header_cells, header_template.
  intros Hh Hd. run.
  assert (Hbk : forall w0 : world, heap w0 = h ->
            match d with
            | None => ret []
            | Some l => do o <- deref l; ret (obj_items o)
            end w0 = (w0, Ok (descriptor_items h d))).
  { intros w0 <-. destruct d as [l|]; [|done]. run.
    destruct Hd as [o Ho]. simpl. by rewrite Ho. }
  destruct (header_markdown self) as [cfg|]; simpl.
  - apply negb_true_iff in Hh. rewrite Hh. simpl.
    unfold add_markdown_cell_str, add_code_cell, append_cell. simpl.
    rewrite Hbk by done. simpl. by rewrite <- app_assoc.
  - unfold add_markdown_cell_str, add_code_cell, append_cell. simpl.
    rewrite Hbk by done. simpl. by rewrite <- app_assoc.
Qed.

(** C7: for a suite without rules (and inputs that the resolver and the
    header accept) [render] returns, and leaves in [self._notebook], the
    header cells, the intro cell, the table section header, the table
    "not found" cell, the column section header, the column "not found"
    cell and the footer cells, in this order and nothing else; no cell comes
    from a per-rule template. *)
Theorem C7_render_suite_without_rules (self : SuiteEditNotebookRenderer)
    (suite : ExpectationSuite) (batch_kwargs : option loc) (w : world) :
  expectations suite = [] ->
  header_ok self = true ->
  descriptors_ok get_citations w suite batch_kwargs ->
  exists (h' : gmap loc pyobj) (d : option loc) (cells : list cell),
    render get_citations BatchKwargs_is_dict self (IsSuite suite) batch_kwargs w
      = (World h' (Some cells), Ok cells)
    /\ get_batch_kwargs get_citations BatchKwargs_is_dict suite batch_kwargs
         (World (heap w) (Some [])) = (World h' (Some []), Ok d)
    /\ cells = empty_suite_cells self (expectation_suite_name suite)
                 (descriptor_items h' d)
    /\ sublist
         (header_cells self (expectation_suite_name suite) (descriptor_items h' d)
          ++ [intro_cell;
              static_markdown "TABLE_EXPECTATIONS_NOT_FOUND.md";
              static_markdown "COLUMN_EXPECTATIONS_NOT_FOUND.md"]
          ++ footer_cells)%list
         cells
    /\ List.filter is_rule_cell cells = [].
Proof.
  intros Hex Hh Hd.
  destruct (get_batch_kwargs_total suite batch_kwargs (World (heap w) (Some [])) Hd)
    as (h' & d & Hres & Halloc).
  simpl in Hres.
  exists h', d, (empty_suite_cells self (expectation_suite_name suite)
                   (descriptor_items h' d)).
  split; [|split; [exact Hres|split; [done|split]]].
  - unfold render. unfold bind at 1. simpl. unfold bind at 1. rewrite Hres.
    unfold bind at 1. rewrite (add_header_run _ _ _ _ _ Hh Halloc).
    rewrite Hex. reflexivity.
  - unfold empty_suite_cells, header_cells. simpl.
    repeat first [apply sublist_nil | apply sublist_skip | apply sublist_cons].
  - unfold empty_suite_cells, header_cells. simpl.
    unfold is_rule_cell, from_template. simpl. done.
Qed.

Lemma build_meta_arguments_total (m : option loc) (h : gmap loc pyobj) :
  allocated h m ->
  exists h' s,
    (forall nb, _build_meta_arguments m (World h nb) = (World h' nb, Ok s))
    /\ forall m', allocated h m' -> allocated h' m'.
Proof.
  destruct m as [l|].
  - unfold allocated at 1. intros [o Ho].
    exists (<[l := PyObj (obj_class o) (dict_pop profiler (obj_items o))]> h),
      (if is_empty (dict_pop profiler (obj_items o)) then ""
       else ", meta=" +:+ py_repr (VDict (dict_pop profiler (obj_items o)))).
    split.
    + intros nb. by rewrite (build_meta_arguments_run (World h nb) _ _ Ho).
    + intros [l'|]; simpl; [|done].
      destruct (decide (l = l')) as [->|Hne].
      * by rewrite lookup_insert_eq.
      * by rewrite lookup_insert_ne.
  - intros _. by exists h, "".
Qed.

Lemma column_of_none (e : ExpectationConfiguration) :
  column_of e = None -> dict_mem "column" (kwargs e) = false.
Proof. unfold column_of, dict_mem, od_mem, dict_get. by intros ->. Qed.

Lemma column_of_some (e : ExpectationConfiguration) (c : value) :
  column_of e = Some c ->
  dict_mem "column" (kwargs e) = true /\ dict_get "column" (kwargs e) = Some c.
Proof. unfold column_of, dict_mem, od_mem, dict_get. by intros ->. Qed.

(** One table-scope rule and two rules on a column [x] whose name is not the
    table key, in any of the three suite orders, are grouped into the table
    bucket and one bucket for [x]. *)
Lemma grouping_one_table_two_column (t e1 e2 : ExpectationConfiguration)
    (x : string) (exps : list ExpectationConfiguration) :
  column_of t = None ->
  column_of e1 = Some (VStr x) ->
  column_of e2 = Some (VStr x) ->
  x <> "table_expectations" ->
  exps = [t; e1; e2] \/ exps = [e1; t; e2] \/ exps = [e1; e2; t] ->
  _get_expectations_by_column exps = Ok [(table_key, [t]); (VStr x, [e1; e2])].
Proof.
  intros Ht (M1 & G1)%column_of_some (M2 & G2)%column_of_some Hx Hexps.
  apply column_of_none in Ht.
  assert (Ktx : key_eqb table_key (VStr x) = false).
  { unfold key_eqb, table_key. apply String.eqb_neq. congruence. }
  assert (Kxx : key_eqb (VStr x) (VStr x) = true) by by apply key_eqb_refl.
  assert (Ktt : key_eqb table_key table_key = true) by done.
  unfold _get_expectations_by_column.
  destruct Hexps as [->|[->| ->]]; simpl;
    repeat (rewrite ?Ht, ?M1, ?M2, ?G1, ?G2, ?Ktx, ?Kxx, ?Ktt; unfold od_mem; simpl);
    done.
Qed.

(** For such a suite the rule sections of the document are: the table
    section header, one table-level executable cell, the column section
    header, one per-column header for [x] and two column-level executable
    cells.  (This is C8 away from the column name that collides with the
    table key.) *)
Lemma expectation_cells_one_table_two_column (t e1 e2 : ExpectationConfiguration)
    (x : string) (exps : list ExpectationConfiguration)
    (h : gmap loc pyobj) (cells : list cell) :
  column_of t = None ->
  column_of e1 = Some (VStr x) ->
  column_of e2 = Some (VStr x) ->
  x <> "table_expectations" ->
  exps = [t; e1; e2] \/ exps = [e1; t; e2] \/ exps = [e1; e2; t] ->
  allocated h (meta e1) ->
  allocated h (meta e2) ->
  exists h' m1 m2,
    add_expectation_cells_from_suite exps (World h (Some cells)) =
      (World h'
         (Some (cells ++
                [static_markdown "TABLE_EXPECTATIONS_HEADER.md";
                 table_cell t;
                 static_markdown "COLUMN_EXPECTATIONS_HEADER.md";
                 column_header (VStr x);
                 column_cell e1 m1;
                 column_cell e2 m2])%list),
       Ok tt).
Proof.
  intros Ht H1 H2 Hx Hexps A1 A2.
  unfold add_expectation_cells_from_suite.
  unfold bind at 1, lift.
  rewrite (grouping_one_table_two_column t e1 e2 x exps Ht H1 H2 Hx Hexps).
  unfold add_markdown_cell, append_cell, _add_table_level_expectations,
    _add_column_level_expectations, add_code_cell, append_cell.
  destruct (build_meta_arguments_total (meta e1) h A1) as (h1 & m1 & R1 & Hkeep).
  destruct (build_meta_arguments_total (meta e2) h1 (Hkeep _ A2))
    as (h2 & m2 & R2 & _).
  exists h2, m1, m2.
  run.
  repeat (progress (unfold bind, ret, add_markdown_cell, add_code_cell, append_cell;
                    simpl; rewrite ?R1, ?R2; simpl)).
  repeat rewrite <- app_assoc. done.
Qed.

(** C9: given anything that is not an [ExpectationSuite], [render] raises
    [RuntimeWarning] at once: the store and [self._notebook] are what they
    were before the call, so no cell was built or kept. *)
Theorem C9_render_rejects_non_suite (self : SuiteEditNotebookRenderer)
    (v : value) (batch_kwargs : option loc) (w : world) :
  render get_citations BatchKwargs_is_dict self (NotSuite v) batch_kwargs w
    = (w, Raise RuntimeWarning).
Proof. reflexivity. Qed.

(** C8 fails on the code for a column named [table_expectations]: the two
    column rules are filed in the table bucket, so [render] emits three
    table-level executable cells, the column "not found" cell, no per-column
    header cell and no column-level executable cell. *)
Theorem C8_column_named_like_table_bucket :
  exists (w' : world) (cells : list cell),
    render get_citations BatchKwargs_is_dict (MkRenderer None)
      (IsSuite suite_column_named_table_expectations) None (World ∅ None)
      = (w', Ok cells)
    /\ length (List.filter (from_template code_cell "table_expectation.py") cells)
         = 3%nat
    /\ List.filter (from_template markdown_cell "COLUMN_EXPECTATIONS.md") cells = []
    /\ List.filter (from_template code_cell "column_expectation.py") cells = []
    /\ length (List.filter
                 (from_template markdown_cell "COLUMN_EXPECTATIONS_NOT_FOUND.md")
                 cells) = 1%nat.
Proof.
  eexists _, _. split.
  - unfold render, suite_column_named_table_expectations, get_batch_kwargs.
    run. reflexivity.
  - by vm_compute.
Qed.

End AssemblerFacts.

Lemma C7_render_suite_without_rules_witness :
  exists (h' : gmap loc pyobj) (d : option loc) (cells : list cell),
    render citations_with_batch_kwargs true (MkRenderer None)
      (IsSuite (Suite "mysuite" [] None)) (Some 1%positive) world_relative
      = (World h' (Some cells), Ok cells)
    /\ cells = empty_suite_cells (MkRenderer None) "mysuite" (descriptor_items h' d)
    /\ List.filter is_rule_cell cells = [].
Proof.
  destruct (C7_render_suite_without_rules citations_with_batch_kwargs true
              (MkRenderer None) (Suite "mysuite" [] None) (Some 1%positive)
              world_relative)
    as (h' & d & cells & H1 & _ & H3 & _ & H5).
  - reflexivity.
  - reflexivity.
  - split; [reflexivity|]. vm_compute. constructor.
  - exists h', d, cells. by repeat split.
Defined.

(** * Further properties of the code *)

(** ** ExpectationGrouper *)

Lemma bucket_append_perm (k : value) (e : ExpectationConfiguration)
    (d d' : grouped) :
  bucket_append k e d = Ok d' ->
  Permutation (all_rules d') (e :: all_rules d).
Proof.
  unfold all_rules. revert d'. induction d as [|[k' b] d IH]; intros d'; simpl.
  - discriminate.
  - destruct (key_eqb k' k).
    + intros [= <-]. simpl. rewrite <- app_assoc. simpl.
      symmetry. apply Permutation_middle.
    + destruct (bucket_append k e d) as [d''|] eqn:E; [|discriminate].
      intros [= <-]. simpl. rewrite (IH d'' eq_refl).
      symmetry. apply Permutation_middle.
Qed.

Lemma group_loop_perm (exps : list ExpectationConfiguration) :
  forall acc g : grouped,
  group_loop exps acc = Ok g ->
  Permutation (all_rules g) (all_rules acc ++ exps).
Proof.
  induction exps as [|exp rest IH]; intros acc g; simpl.
  - intros [= <-]. by rewrite app_nil_r.
  - destruct (dict_mem "column" (kwargs exp)).
    + destruct (dict_get "column" (kwargs exp)) as [col|]; [|discriminate].
      destruct (hashable col); [|discriminate].
      destruct (bucket_append col exp _) as [d'|] eqn:E; [|discriminate].
      intros Hg. rewrite (IH _ _ Hg). apply bucket_append_perm in E.
      rewrite E. rewrite <- Permutation_middle. apply Permutation_cons; [done|].
      apply Permutation_app_tail.
      destruct (od_mem key_eqb col acc) eqn:Hm; simpl; [done|].
      rewrite (od_set_absent key_eqb col [] acc Hm).
      unfold all_rules. by rewrite map_app, concat_app, app_nil_r.
    + destruct (bucket_append table_key exp acc) as [d'|] eqn:E; [|discriminate].
      intros Hg. rewrite (IH _ _ Hg). apply bucket_append_perm in E.
      rewrite E. by rewrite <- Permutation_middle.
Qed.

(** One round of the loop on a state that is a dictionary leaves a
    dictionary. *)
Lemma group_step_inv (exp : ExpectationConfiguration) (acc : grouped) :
  hashable (bucket_key exp) = true ->
  grouped_inv acc ->
  exists acc',
    bucket_append (bucket_key exp) exp
      (if key_in (bucket_key exp) acc then acc
       else (acc ++ [(bucket_key exp, [])])%list) = Ok acc'
    /\ grouped_inv acc'.
Proof.
  intros Hc [Ht Hd]. set (c := bucket_key exp) in *.
  destruct (key_in c acc) eqn:Hin.
  - exists (append_to c exp acc).
    split; [by apply bucket_append_present|]. split.
    + by rewrite key_in_existsb, append_to_keys, <- key_in_existsb.
    + by rewrite append_to_keys.
  - exists (acc ++ [(c, [exp])])%list. split.
    + apply bucket_append_new; [done|by apply key_eqb_refl].
    + split; [by rewrite key_in_app, Ht|].
      rewrite map_app. apply distinct_keys_snoc; [done|].
      apply forallb_forall. intros k Hk. apply negb_true_iff.
      apply key_in_false in Hin. rewrite Forall_forall in Hin.
      apply in_map_iff in Hk as ([k' b'] & <- & Hk).
      apply (Hin (k', b')). by apply list_elem_of_In.
Qed.

Lemma group_loop_total (exps : list ExpectationConfiguration) :
  forall acc : grouped,
  Forall (fun e => hashable (bucket_key e) = true) exps ->
  grouped_inv acc ->
  exists g, group_loop exps acc = Ok g /\ grouped_inv g.
Proof.
  induction exps as [|exp rest IH]; intros acc Hh Hinv.
  - by exists acc.
  - apply Forall_cons in Hh as [Hc Hh].
    rewrite (group_loop_cons _ _ _ Hc (proj1 Hinv)).
    destruct (group_step_inv exp acc Hc Hinv) as (acc' & -> & Hinv').
    by apply IH.
Qed.

Lemma group_loop_unhashable (exps : list ExpectationConfiguration) :
  forall acc : grouped,
  grouped_inv acc ->
  Exists (fun e => hashable (bucket_key e) = false) exps ->
  group_loop exps acc = Raise TypeError.
Proof.
  induction exps as [|exp rest IH]; intros acc Hinv Hex.
  - by apply Exists_nil in Hex.
  - destruct (hashable (bucket_key exp)) eqn:Hc.
    + rewrite (group_loop_cons _ _ _ Hc (proj1 Hinv)).
      destruct (group_step_inv exp acc Hc Hinv) as (acc' & -> & Hinv').
      apply IH; [done|]. apply Exists_cons in Hex as [Hex|Hex]; [congruence|done].
    + revert Hc. unfold bucket_key, column_of. simpl.
      change (dict_mem "column" (kwargs exp))
        with (match dict_get "column" (kwargs exp) with
              | Some _ => true | None => false end).
      destruct (dict_get "column" (kwargs exp)) as [col|]; [|done].
      by intros ->.
Qed.

Lemma hashable_bucket_key (e : ExpectationConfiguration) :
  hashable (bucket_key e) = false <-> unhashable_column e.
Proof.
  unfold unhashable_column, bucket_key. destruct (column_of e) as [c|].
  - split; [by exists c|]. by intros (c' & [= <-] & H).
  - split; [done|]. by intros (c' & [=] & _).
Qed.

Lemma grouped_inv_init : grouped_inv [(table_key, [])].
Proof. by split. Qed.

(** X2: grouping neither loses nor duplicates a rule: when no [column]
    value is a list or a dict, [_get_expectations_by_column] returns a
    mapping whose buckets, taken together, are a permutation of the rules it
    was given. *)
Theorem X2_grouping_is_a_permutation (expectations : list ExpectationConfiguration) :
  Forall (fun e => forall c, column_of e = Some c -> hashable c = true)
    expectations ->
  exists g,
    _get_expectations_by_column expectations = Ok g
    /\ Permutation (all_rules g) expectations
    /\ length (all_rules g) = length expectations.
Proof.
  intros Hh.
  assert (Hh' : Forall (fun e => hashable (bucket_key e) = true) expectations).
  { eapply Forall_impl; [exact Hh|]. intros e He. simpl in He.
    unfold bucket_key. destruct (column_of e) as [c|]; [|done]. by apply He. }
  destruct (group_loop_total expectations _ Hh' grouped_inv_init) as (g & Hg & _).
  exists g. split; [exact Hg|].
  pose proof (group_loop_perm _ _ _ Hg) as Hp. simpl in Hp.
  split; [exact Hp|]. by apply Permutation_length.
Qed.

Lemma X2_grouping_is_a_permutation_witness :
  exists g,
    _get_expectations_by_column
      [rule_on "b" "expect_1"; rule_on_table "expect_2"; rule_on "b" "expect_3"]
    = Ok g
    /\ Permutation (all_rules g)
         [rule_on "b" "expect_1"; rule_on_table "expect_2"; rule_on "b" "expect_3"]
    /\ length (all_rules g) = 3%nat.
Proof.
  apply (X2_grouping_is_a_permutation
           [rule_on "b" "expect_1"; rule_on_table "expect_2";
            rule_on "b" "expect_3"]).
  repeat constructor; intros c Hc; vm_compute in Hc; by inversion Hc.
Defined.

(** X3: the only way [_get_expectations_by_column] fails is the [TypeError]
    of an unhashable dictionary key: it raises [TypeError] exactly when some
    rule has a list or a dict as its [column] value, and returns a mapping
    otherwise; it never raises [KeyError]. *)
Theorem X3_grouping_fails_on_unhashable_column_only
    (expectations : list ExpectationConfiguration) :
  (Exists unhashable_column expectations ->
     _get_expectations_by_column expectations = Raise TypeError)
  /\ (~ Exists unhashable_column expectations ->
      exists g, _get_expectations_by_column expectations = Ok g)
  /\ (_get_expectations_by_column expectations = Raise TypeError ->
      Exists unhashable_column expectations)
  /\ _get_expectations_by_column expectations <> Raise KeyError.
Proof.
  assert (Hyes : Exists unhashable_column expectations ->
            _get_expectations_by_column expectations = Raise TypeError).
  { intros Hex. apply group_loop_unhashable; [apply grouped_inv_init|].
    eapply Exists_impl; [exact Hex|]. intros e. apply hashable_bucket_key. }
  assert (Hno : ~ Exists unhashable_column expectations ->
            exists g, _get_expectations_by_column expectations = Ok g).
  { intros Hn.
    destruct (group_loop_total expectations [(table_key, [])]) as (g & Hg & _);
      [|apply grouped_inv_init|by exists g].
    apply Forall_forall. intros e He.
    destruct (hashable (bucket_key e)) eqn:Hb; [done|]. exfalso. apply Hn.
    apply Exists_exists. exists e. split; [done|]. by apply hashable_bucket_key. }
  assert (Hdec : Exists unhashable_column expectations
                 \/ ~ Exists unhashable_column expectations).
  { destruct (existsb (fun e => negb (hashable (bucket_key e))) expectations) eqn:E.
    - left. apply existsb_exists in E as (e & He & Hb).
      apply Exists_exists. exists e. split; [by apply list_elem_of_In|].
      apply hashable_bucket_key. by apply negb_true_iff.
    - right. intros (e & He & Hb)%Exists_exists.
      apply hashable_bucket_key in Hb.
      assert (existsb (fun e => negb (hashable (bucket_key e))) expectations = true);
        [|congruence].
      apply existsb_exists. exists e. split; [by apply list_elem_of_In|].
      by rewrite Hb. }
  split; [exact Hyes|]. split; [exact Hno|]. split.
  - intros Hr. destruct Hdec as [H|H]; [done|].
    destruct (Hno H) as (g & Hg). congruence.
  - destruct Hdec as [H|H].
    + rewrite (Hyes H). discriminate.
    + destruct (Hno H) as (g & ->). discriminate.
Qed.

Lemma X3_grouping_fails_on_unhashable_column_only_witness :
  _get_expectations_by_column [rule_on "b" "expect_1"; rule_on_list_column]
    = Raise TypeError.
Proof.
  apply (X3_grouping_fails_on_unhashable_column_only
           [rule_on "b" "expect_1"; rule_on_list_column]).
  apply Exists_cons. right. apply Exists_cons. left.
  exists (VList [VStr "a"; VStr "b"]). split; reflexivity.
Defined.

(** The grouped mapping, in closed form. *)
Lemma get_expectations_by_column_spec (exps : list ExpectationConfiguration) :
  Forall (fun e => forall c, column_of e = Some c -> hashable c = true) exps ->
  _get_expectations_by_column exps =
    Ok ((table_key, List.filter (in_bucket table_key) exps)
        :: map (new_bucket exps)
             (List.filter (fun c => negb (key_eqb table_key c))
                (first_seen (columns exps)))).
Proof.
  intros Hh.
  assert (Hh' : Forall (fun e => hashable (bucket_key e) = true) exps).
  { eapply Forall_impl; [exact Hh|]. intros e He. simpl in He.
    unfold bucket_key. destruct (column_of e) as [c|]; [|done]. by apply He. }
  unfold _get_expectations_by_column.
  rewrite (group_loop_spec exps [(table_key, [])] Hh' eq_refl eq_refl).
  simpl map at 1. unfold with_rules at 1. simpl.
  rewrite (List.filter_ext _ (fun c => negb (key_eqb table_key c)))
    by (intros c; unfold key_in, od_mem; simpl;
        by destruct (key_eqb table_key c)).
  rewrite table_bucket_filter.
  rewrite <- first_seen_filter; [done|].
  intros x y Hxy. f_equal. rewrite !(key_eqb_sym table_key).
  by apply key_eqb_congr.
Qed.

Lemma columns_In (exps : list ExpectationConfiguration) (c : value) :
  In c (columns exps) -> exists e, In e exps /\ column_of e = Some c.
Proof.
  induction exps as [|e exps IH]; simpl; [done|].
  destruct (column_of e) as [c'|] eqn:E.
  - intros [->|H].
    + exists e. by split; [left|].
    + destruct (IH H) as (e' & He' & Hc). exists e'. by split; [right|].
  - intros H. destruct (IH H) as (e' & He' & Hc). exists e'. by split; [right|].
Qed.

(** Away from the reserved name the grouped mapping is what the rules
    determine: the table bucket holds the rules without a column, and the
    column buckets are those of the first-seen column names. *)
Lemma grouping_without_collision (exps : list ExpectationConfiguration) :
  Forall (fun e => forall c, column_of e = Some c -> hashable c = true) exps ->
  no_reserved_column exps ->
  _get_expectations_by_column exps =
    Ok ((table_key, table_scope_rules exps) :: column_buckets exps).
Proof.
  intros Hh Hno. rewrite (get_expectations_by_column_spec _ Hh).
  unfold no_reserved_column in Hno. rewrite Forall_forall in Hno.
  assert (Hcol : forall e c, In e exps -> column_of e = Some c ->
            key_eqb table_key c = false).
  { intros e c He Hc. apply Hno. apply list_elem_of_In.
    clear -He Hc. induction exps as [|e' exps IH]; [done|]. simpl.
    destruct He as [->|He].
    - rewrite Hc. by left.
    - destruct (column_of e'); [right|]; by apply IH. }
  f_equal. f_equal; [f_equal|].
  - unfold table_scope_rules. apply filter_ext_in. intros e He.
    unfold in_bucket, bucket_key. destruct (column_of e) as [c|] eqn:Hc; [|done].
    by apply (Hcol e).
  - unfold column_buckets.
    rewrite forallb_filter_id.
    2:{ apply forallb_forall. intros c Hc. apply negb_true_iff.
        apply Hno. apply list_elem_of_In. by apply first_seen_subset. }
    apply map_ext_in. intros c Hc. unfold new_bucket. f_equal.
    unfold rules_on_column. apply filter_ext_in. intros e He.
    unfold in_bucket, bucket_key. destruct (column_of e) as [c'|]; [done|].
    rewrite key_eqb_sym. apply Hno. apply list_elem_of_In.
    by apply first_seen_subset.
Qed.

(** X4: in the grouped mapping no two keys are equal, no column bucket is
    empty, and a column bucket holds only rules whose [column] value equals
    its key: a table-scope rule is never filed under a column. *)
Theorem X4_column_buckets_nonempty_and_homogeneous
    (expectations : list ExpectationConfiguration) :
  Forall (fun e => forall c, column_of e = Some c -> hashable c = true)
    expectations ->
  exists table cols,
    _get_expectations_by_column expectations = Ok ((table_key, table) :: cols)
    /\ distinct_keys (table_key :: map fst cols) = true
    /\ Forall (fun kb => snd kb <> []) cols
    /\ Forall (fun kb =>
         Forall (fun e => exists c, column_of e = Some c
                                    /\ key_eqb (fst kb) c = true) (snd kb))
         cols.
Proof.
  intros Hh. eexists _, _.
  split; [by apply get_expectations_by_column_spec|].
  assert (Hh' : Forall (fun e => hashable (bucket_key e) = true) expectations).
  { eapply Forall_impl; [exact Hh|]. intros e He. simpl in He.
    unfold bucket_key. destruct (column_of e) as [c|]; [|done]. by apply He. }
  split; [|split].
  - destruct (group_loop_total expectations _ Hh' grouped_inv_init)
      as (g & Hg & _ & Hd).
    change (group_loop expectations [(table_key, [])])
      with (_get_expectations_by_column expectations) in Hg.
    rewrite (get_expectations_by_column_spec _ Hh) in Hg.
    injection Hg as <-. exact Hd.
  - apply Forall_forall. intros kb Hkb.
    apply list_elem_of_In, in_map_iff in Hkb as (k & <- & Hk).
    apply filter_In in Hk as [Hk _]. apply first_seen_subset in Hk.
    destruct (columns_In _ _ Hk) as (e & He & Hc).
    simpl. intros Hnil.
    assert (Hin : In e (List.filter (in_bucket k) expectations)).
    { apply filter_In. split; [done|]. unfold in_bucket, bucket_key.
      rewrite Hc. apply key_eqb_refl. rewrite Forall_forall in Hh.
      apply (Hh e); [by apply list_elem_of_In|done]. }
    by rewrite Hnil in Hin.
  - apply Forall_forall. intros kb Hkb.
    apply list_elem_of_In, in_map_iff in Hkb as (k & <- & Hk).
    apply filter_In in Hk as [_ Hk]. apply negb_true_iff in Hk.
    simpl. apply Forall_forall. intros e He.
    apply list_elem_of_In, filter_In in He as [_ He].
    unfold in_bucket, bucket_key in He.
    destruct (column_of e) as [c|]; [by exists c|].
    rewrite key_eqb_sym in He. congruence.
Qed.

Lemma X4_column_buckets_nonempty_and_homogeneous_witness :
  exists table cols,
    _get_expectations_by_column
      [rule_on "b" "expect_1"; rule_on_table "expect_2"; rule_on "a" "expect_3"]
    = Ok ((table_key, table) :: cols)
    /\ distinct_keys (table_key :: map fst cols) = true
    /\ Forall (fun kb => snd kb <> []) cols.
Proof.
  destruct (X4_column_buckets_nonempty_and_homogeneous
              [rule_on "b" "expect_1"; rule_on_table "expect_2";
               rule_on "a" "expect_3"])
    as (table & cols & H1 & H2 & H3 & _).
  - repeat constructor; intros c Hc; vm_compute in Hc; by inversion Hc.
  - by exists table, cols.
Defined.

(** ** MetaFormatter *)

Lemma dict_mem_pop (k : string) (d : py_dict) :
  NoDup (map fst d) -> dict_mem k (dict_pop k d) = false.
Proof.
  intros Hnd. rewrite (dict_pop_filter _ _ Hnd).
  unfold dict_mem, od_mem. clear Hnd.
  induction d as [|[a v] d IH]; simpl; [done|].
  destruct (String.eqb a k) eqn:E; simpl; [exact IH|].
  by rewrite E.
Qed.

(** X5: [_build_meta_arguments] is idempotent: a second call on the same
    mapping returns the same text as the first and changes nothing more. *)
Theorem X5_build_meta_arguments_idempotent (w : world) (l : loc) (o : pyobj) :
  heap w !! l = Some o ->
  NoDup (map fst (obj_items o)) ->
  _build_meta_arguments (Some l) (fst (_build_meta_arguments (Some l) w))
    = _build_meta_arguments (Some l) w.
Proof.
  intros Hl Hnd. rewrite (build_meta_arguments_run _ _ _ Hl). cbn [fst].
  rewrite (build_meta_arguments_run _ l
             (PyObj (obj_class o) (dict_pop profiler (obj_items o))))
    by apply lookup_insert_eq.
  cbn [heap _notebook obj_class obj_items]. rewrite insert_insert_eq.
  by rewrite (dict_pop_absent _ _ (dict_mem_pop profiler _ Hnd)).
Qed.

Lemma X5_build_meta_arguments_idempotent_witness :
  _build_meta_arguments (Some 1%positive)
      (fst (_build_meta_arguments (Some 1%positive) world_with_meta))
    = _build_meta_arguments (Some 1%positive) world_with_meta.
Proof.
  apply (X5_build_meta_arguments_idempotent world_with_meta 1%positive
           (PyObj ClsDict profiled_meta)).
  - reflexivity.
  - apply (bool_decide_unpack _). by vm_compute.
Defined.

(** ** BatchSourceResolver *)

Lemma fix_path_dict_no_path (w : world) (l : loc) (items : py_dict) :
  heap w !! l = Some (PyObj ClsDict items) ->
  dict_mem "path" items = false ->
  _fix_path_in_batch_kwargs (Some l) w = (w, Ok (Some l)).
Proof.
  intros Hl Hm. unfold _fix_path_in_batch_kwargs. run.
  rewrite Hl. simpl. rewrite Hl. simpl. by rewrite Hm, andb_false_r.
Qed.

(** X6: a descriptor without a [path] entry is left alone: for [None], and
    for a plain [dict] that has no [path] key (the empty dict included),
    [_fix_path_in_batch_kwargs] returns its argument and changes nothing. *)
Theorem X6_fix_path_without_path_is_identity (w : world) (l : loc)
    (items : py_dict) :
  heap w !! l = Some (PyObj ClsDict items) ->
  dict_get "path" items = None ->
  _fix_path_in_batch_kwargs (Some l) w = (w, Ok (Some l))
  /\ _fix_path_in_batch_kwargs None w = (w, Ok None).
Proof.
  intros Hl Hp. split; [|done].
  apply (fix_path_dict_no_path _ _ _ Hl).
  unfold dict_mem, od_mem. unfold dict_get in Hp. by rewrite Hp.
Qed.

Lemma X6_fix_path_without_path_is_identity_witness :
  _fix_path_in_batch_kwargs (Some 1%positive) world_no_path
    = (world_no_path, Ok (Some 1%positive)).
Proof.
  apply (X6_fix_path_without_path_is_identity world_no_path 1%positive
           [("table", VStr "t")]).
  - reflexivity.
  - reflexivity.
Defined.

(** X7: a [path] entry that is not a string makes
    [_fix_path_in_batch_kwargs] raise [TypeError] (from [os.path.isabs]);
    the mapping that was passed is as it was. *)
Theorem X7_fix_path_rejects_non_string_path (w : world) (l : loc) (o : pyobj)
    (v : value) :
  heap w !! l = Some o ->
  dict_get "path" (obj_items o) = Some v ->
  is_str v = false ->
  snd (_fix_path_in_batch_kwargs (Some l) w) = Raise TypeError
  /\ heap (fst (_fix_path_in_batch_kwargs (Some l) w)) !! l = Some o
  /\ (obj_class o = ClsDict -> fst (_fix_path_in_batch_kwargs (Some l) w) = w).
Proof.
  intros Hl Hp Hv. destruct o as [c items]. simpl in *.
  destruct (dict_get_mem _ _ _ Hp) as [Hmem Hne].
  unfold _fix_path_in_batch_kwargs. run. rewrite Hl. simpl.
  destruct c; simpl.
  - rewrite Hl. simpl. rewrite Hne, Hmem, Hp. simpl.
    destruct v; try done.
  - rewrite lookup_insert_eq. simpl. rewrite Hne, Hmem, Hp. simpl.
    assert (Hfresh : fresh (dom (heap w)) <> l).
    { intros E. pose proof (is_fresh (dom (heap w))) as Hf. rewrite E in Hf.
      apply Hf. apply elem_of_dom. by rewrite Hl. }
    destruct v; try done; simpl; rewrite lookup_insert_ne by done; done.
Qed.

Lemma X7_fix_path_rejects_non_string_path_witness :
  snd (_fix_path_in_batch_kwargs (Some 1%positive) world_bad_path) = Raise TypeError
  /\ fst (_fix_path_in_batch_kwargs (Some 1%positive) world_bad_path) = world_bad_path.
Proof.
  destruct (X7_fix_path_rejects_non_string_path world_bad_path 1%positive
              (PyObj ClsDict [("path", VInt 5)]) (VInt 5))
    as (H1 & _ & H3).
  - reflexivity.
  - reflexivity.
  - reflexivity.
  - split; [exact H1|]. by apply H3.
Defined.

(** X8: a [BatchKwargs] object is never modified by
    [_fix_path_in_batch_kwargs]: whatever its items, the object and every
    other object of the store are as before, and a mapping that is returned
    is a new object. *)
Theorem X8_fix_path_leaves_batch_kwargs_untouched (w : world) (l : loc)
    (items : py_dict) :
  heap w !! l = Some (PyObj ClsBatchKwargs items) ->
  let r := _fix_path_in_batch_kwargs (Some l) w in
  (forall l', is_Some (heap w !! l') -> heap (fst r) !! l' = heap w !! l')
  /\ (forall l', snd r = Ok (Some l') -> heap w !! l' = None /\ l' <> l)
  /\ _notebook (fst r) = _notebook w.
Proof.
  intros Hl r. subst r.
  assert (Hfresh : heap w !! fresh (dom (heap w)) = None).
  { apply not_elem_of_dom. apply is_fresh. }
  assert (Hkeep : forall (o' : pyobj) l', is_Some (heap w !! l') ->
            <[fresh (dom (heap w)) := o']> (heap w) !! l' = heap w !! l').
  { intros o' l' [o Ho]. rewrite lookup_insert_ne; [done|].
    intros E. rewrite E in Hfresh. congruence. }
  assert (Hnew : forall l', fresh (dom (heap w)) = l' ->
            heap w !! l' = None /\ l' <> l).
  { intros l' <-. split; [done|]. intros E. rewrite E in Hfresh. congruence. }
  unfold _fix_path_in_batch_kwargs. run. rewrite Hl. simpl.
  rewrite lookup_insert_eq. simpl.
  destruct (negb (is_empty items) && dict_mem "path" items).
  - destruct (dict_get "path" items) as [[| | |p| |]|]; simpl;
      try (split; [apply Hkeep|split; [intros l' [=]|done]]).
    destruct (isabs p); simpl.
    + split; [apply Hkeep|]. split; [|done]. intros l' [= E]. by apply Hnew.
    + rewrite insert_insert_eq.
      split; [apply Hkeep|]. split; [|done]. intros l' [= E]. by apply Hnew.
  - simpl. split; [apply Hkeep|]. split; [|done]. intros l' [= E]. by apply Hnew.
Qed.

Lemma X8_fix_path_leaves_batch_kwargs_untouched_witness :
  heap (fst (_fix_path_in_batch_kwargs (Some 1%positive) world_batch_kwargs))
    !! 1%positive
  = heap world_batch_kwargs !! 1%positive.
Proof.
  destruct (X8_fix_path_leaves_batch_kwargs_untouched world_batch_kwargs 1%positive
              [("table", VStr "t"); ("path", VStr "data/file.csv")])
    as (H & _).
  - reflexivity.
  - apply H. by eexists.
Defined.

Lemma isabs_up_two_levels (p : string) : isabs ("../../" +:+ p) = false.
Proof. reflexivity. Qed.

(** X9: normalization is not idempotent on a plain [dict]: every call of
    [_fix_path_in_batch_kwargs] on the same mapping puts two more
    parent-directory steps in front of a relative [path], so after [n] calls
    the mapping holds the path behind [2n] steps. *)
Theorem X9_fix_path_accumulates (n : nat) (w : world) (l : loc)
    (items : py_dict) (p : string) :
  heap w !! l = Some (PyObj ClsDict items) ->
  dict_get "path" items = Some (VStr p) ->
  isabs p = false ->
  exists items',
    heap (normalize_times n l w) !! l = Some (PyObj ClsDict items')
    /\ dict_get "path" items' = Some (VStr (up_levels n p))
    /\ map fst items' = map fst items.
Proof.
  intros Hl Hp Habs.
  assert (Hrel : forall k, isabs (up_levels k p) = false).
  { intros [|k]; [exact Habs|apply isabs_up_two_levels]. }
  induction n as [|n (items' & Hl' & Hp' & Hk')]; simpl.
  - by exists items.
  - rewrite (fix_path_dict_relative _ _ _ _ Hl' Hp' (Hrel n)). simpl.
    rewrite lookup_insert_eq. eexists. split; [done|].
    rewrite dict_get_set_eq. split; [done|].
    rewrite dict_set_keys; [done|]. by apply (dict_get_mem _ _ _ Hp').
Qed.

Lemma X9_fix_path_accumulates_witness :
  exists items',
    heap (normalize_times 2 1%positive world_relative) !! 1%positive
      = Some (PyObj ClsDict items')
    /\ dict_get "path" items' = Some (VStr "../../../../data/file.csv").
Proof.
  destruct (X9_fix_path_accumulates 2 world_relative 1%positive
              [("path", VStr "data/file.csv")] "data/file.csv")
    as (items' & H1 & H2 & _).
  - reflexivity.
  - reflexivity.
  - reflexivity.
  - by exists items'.
Defined.

Section MoreResolverFacts.
Variable get_citations : gmap loc pyobj -> ExpectationSuite -> list citation.
Variable BatchKwargs_is_dict : bool.

(** X10: without an override, [get_batch_kwargs] rewrites the descriptor
    that the suite's last citation holds: the relative [path] of that
    mapping is prefixed in place, in the object the suite refers to. *)
Theorem X10_citation_descriptor_rewritten_in_place (suite : ExpectationSuite)
    (w : world) (c : citation) (cs earlier : list citation) (recent : citation)
    (l : loc) (items : py_dict) (p : string) :
  meta_citations suite = Some (c :: cs) ->
  get_citations (heap w) suite = (earlier ++ [recent])%list ->
  citation_batch_kwargs recent = Some l ->
  heap w !! l = Some (PyObj ClsDict items) ->
  dict_get "path" items = Some (VStr p) ->
  isabs p = false ->
  get_batch_kwargs get_citations BatchKwargs_is_dict suite None w =
    (World (<[l := PyObj ClsDict (dict_set "path" (VStr ("../../" +:+ p)) items)]>
              (heap w)) (_notebook w),
     Ok (Some l)).
Proof.
  intros Hm Hc Hr Hl Hp Habs. unfold get_batch_kwargs. run.
  rewrite Hm, Hc, last_snoc, Hr.
  by apply fix_path_dict_relative.
Qed.

(** X11: a plain [dict] passed as override that has no [path] entry (the
    empty dict included) is returned as it is and nothing changes, whatever
    citations the suite has: the citations are not consulted. *)
Theorem X11_override_without_path_returned_as_is (suite : ExpectationSuite)
    (w : world) (l : loc) (items : py_dict) :
  heap w !! l = Some (PyObj ClsDict items) ->
  dict_get "path" items = None ->
  get_batch_kwargs get_citations BatchKwargs_is_dict suite (Some l) w
    = (w, Ok (Some l)).
Proof.
  intros Hl Hp. unfold get_batch_kwargs. run. rewrite Hl.
  apply (fix_path_dict_no_path _ _ _ Hl).
  unfold dict_mem, od_mem. unfold dict_get in Hp. by rewrite Hp.
Qed.
End MoreResolverFacts.

Lemma X10_citation_descriptor_rewritten_in_place_witness :
  get_batch_kwargs citations_with_batch_kwargs true suite_with_citation None
      world_relative
    = (World (<[1%positive :=
                 PyObj ClsDict
                   (dict_set "path" (VStr "../../data/file.csv")
                      [("path", VStr "data/file.csv")])]>
                (heap world_relative)) None,
       Ok (Some 1%positive)).
Proof.
  apply (X10_citation_descriptor_rewritten_in_place citations_with_batch_kwargs true
           suite_with_citation world_relative
           (Citation "2020-01-01" (Some 1%positive)) [] []
           (Citation "2020-01-01" (Some 1%positive)) 1%positive
           [("path", VStr "data/file.csv")] "data/file.csv").
  - reflexivity.
  - by vm_compute.
  - reflexivity.
  - reflexivity.
  - reflexivity.
  - reflexivity.
Defined.

Lemma X11_override_without_path_returned_as_is_witness :
  get_batch_kwargs citations_with_batch_kwargs true suite_with_citation
      (Some 1%positive) world_no_path
    = (world_no_path, Ok (Some 1%positive)).
Proof.
  apply (X11_override_without_path_returned_as_is citations_with_batch_kwargs true
           suite_with_citation world_no_path 1%positive [("table", VStr "t")]).
  - reflexivity.
  - reflexivity.
Defined.

(** ** NotebookAssembler *)

Lemma allocated_insert (h : gmap loc pyobj) (l : loc) (o : pyobj) (m : option loc) :
  allocated h m -> allocated (<[l := o]> h) m.
Proof.
  destruct m as [l'|]; simpl; [|done]. intros [o' Ho'].
  destruct (decide (l = l')) as [->|Hne].
  - rewrite lookup_insert_eq. by eexists.
  - rewrite lookup_insert_ne by done. by eexists.
Qed.

Lemma fix_path_keeps_allocated (d : option loc) (w : world) (m : option loc) :
  allocated (heap w) m ->
  allocated (heap (fst (_fix_path_in_batch_kwargs d w))) m.
Proof.
  intros H. unfold _fix_path_in_batch_kwargs. run.
  destruct d as [l|]; [|done]. simpl.
  destruct (heap w !! l) as [[c items]|] eqn:Hl; [|done]. simpl.
  destruct c; simpl.
  - rewrite Hl. simpl.
    destruct (negb (is_empty items) && dict_mem "path" items); [|done].
    destruct (dict_get "path" items) as [[| | |p| |]|]; simpl; try done.
    destruct (isabs p); simpl; auto using allocated_insert.
  - rewrite lookup_insert_eq. simpl.
    destruct (negb (is_empty items) && dict_mem "path" items);
      [|by apply allocated_insert].
    destruct (dict_get "path" items) as [[| | |p| |]|]; simpl;
      try by apply allocated_insert.
    destruct (isabs p); simpl; auto using allocated_insert.
Qed.

(** Running a loop whose body appends cells: the cells of the rounds follow
    one another, and references stay valid. *)
Lemma for_each_run {A} (refs : A -> list (option loc)) (slots_of : A -> list slot)
    (body : A -> M unit) :
  (forall x h cs, Forall (allocated h) (refs x) ->
     exists h' new,
       body x (World h (Some cs)) = (World h' (Some (cs ++ new)%list), Ok tt)
       /\ Forall2 fills (slots_of x) new
       /\ (forall m, allocated h m -> allocated h' m)) ->
  forall l h cs, Forall (fun x => Forall (allocated h) (refs x)) l ->
     exists h' new,
       for_each l body (World h (Some cs)) = (World h' (Some (cs ++ new)%list), Ok tt)
       /\ Forall2 fills (flat_map slots_of l) new
       /\ (forall m, allocated h m -> allocated h' m).
Proof.
  intros Hbody l. induction l as [|x l IH]; intros h cs Hl.
  - exists h, []. simpl. rewrite app_nil_r. by repeat split.
  - apply Forall_cons in Hl as [Hx Hl].
    destruct (Hbody x h cs Hx) as (h1 & new1 & R1 & F1 & K1).
    destruct (IH h1 (cs ++ new1)%list) as (h2 & new2 & R2 & F2 & K2).
    { eapply Forall_impl; [exact Hl|]. intros y Hy. simpl in Hy.
      eapply Forall_impl; [exact Hy|]. intros m. apply K1. }
    exists h2, (new1 ++ new2)%list. split; [|split].
    + simpl. unfold bind. rewrite R1, R2. by rewrite app_assoc.
    + simpl. by apply Forall2_app.
    + intros m Hm. by apply K2, K1.
Qed.

Lemma flat_map_singleton {A B} (f : A -> B) (l : list A) :
  flat_map (fun x => [f x]) l = map f l.
Proof. induction l as [|x l IH]; simpl; [done|]. by rewrite IH. Qed.

Lemma table_rules_run (table : list ExpectationConfiguration)
    (h : gmap loc pyobj) (cs : list cell) :
  for_each table (fun exp =>
      add_code_cell "table_expectation.py" true
        [("expectation", TExpectation exp);
         ("kwargs_string", TText (_build_kwargs_string exp))])
    (World h (Some cs))
  = (World h (Some (cs ++ map table_cell table)%list), Ok tt).
Proof.
  revert cs. induction table as [|e table IH]; intros cs; simpl.
  - by rewrite app_nil_r.
  - unfold bind, add_code_cell, append_cell. simpl. rewrite IH.
    by rewrite <- app_assoc.
Qed.

(** X14: the table section is built without looking at the metadata of the
    rules: [_add_table_level_expectations] appends one executable cell per
    table-scope rule, in order, whose parameters are the rule and its
    argument string only (or the single "not found" cell when there is no
    such rule), and leaves the store as it is; without a table bucket it
    raises [KeyError] and appends nothing. *)
Theorem X14_table_section_ignores_metadata (g : grouped)
    (h : gmap loc pyobj) (cs : list cell) :
  (forall table, od_get key_eqb table_key g = Some table ->
     _add_table_level_expectations g (World h (Some cs))
       = (World h (Some (cs ++ table_section table)%list), Ok tt))
  /\ (od_get key_eqb table_key g = None ->
      _add_table_level_expectations g (World h (Some cs))
        = (World h (Some cs), Raise KeyError)).
Proof.
  unfold _add_table_level_expectations. split.
  - intros table ->. destruct table as [|e table]; [done|].
    apply (table_rules_run (e :: table)).
  - by intros ->.
Qed.

Lemma X14_table_section_ignores_metadata_witness :
  _add_table_level_expectations
      [(table_key, [rule_on_table "expect_1"; rule_on_table "expect_2"])]
      (World (heap world_with_meta) (Some []))
    = (World (heap world_with_meta)
         (Some [table_cell (rule_on_table "expect_1");
                table_cell (rule_on_table "expect_2")]),
       Ok tt).
Proof.
  destruct (X14_table_section_ignores_metadata
              [(table_key, [rule_on_table "expect_1"; rule_on_table "expect_2"])]
              (heap world_with_meta) []) as [H _].
  apply (H [rule_on_table "expect_1"; rule_on_table "expect_2"]).
  reflexivity.
Defined.

Lemma add_table_level_run (g : grouped) (table : list ExpectationConfiguration)
    (h : gmap loc pyobj) (cs : list cell) :
  od_get key_eqb table_key g = Some table ->
  _add_table_level_expectations g (World h (Some cs))
    = (World h (Some (cs ++ table_section table)%list), Ok tt).
Proof.
  unfold _add_table_level_expectations. intros ->.
  destruct table as [|e table]; [done|]. apply (table_rules_run (e :: table)).
Qed.

Lemma add_column_level_run (cols : grouped) (h : gmap loc pyobj) (cs : list cell) :
  Forall (fun kb => Forall (allocated h) (map meta (snd kb))) cols ->
  exists h' new,
    _add_column_level_expectations cols (World h (Some cs))
      = (World h' (Some (cs ++ new)%list), Ok tt)
    /\ Forall2 fills (column_section cols) new
    /\ (forall m, allocated h m -> allocated h' m).
Proof.
  intros Hcols. unfold _add_column_level_expectations, column_section.
  destruct cols as [|kb cols]; simpl is_empty; cbv iota.
  - exists h, [static_markdown "COLUMN_EXPECTATIONS_NOT_FOUND.md"].
    split; [done|]. split; [|done]. by repeat constructor.
  - apply (for_each_run (fun kb => map meta (snd kb)) bucket_slots); [|done].
    clear. intros [column exps] h cs Hx. simpl in Hx.
    destruct (for_each_run (fun e => [meta e]) (fun e => [ColumnRule e])
                (fun exp =>
                   do meta_args <- _build_meta_arguments (meta exp);
                   add_code_cell "column_expectation.py" true
                     [("expectation", TExpectation exp);
                      ("kwargs_string", TText (_build_kwargs_string exp));
                      ("meta_args", TText meta_args)])) with
      (l := exps) (h := h) (cs := (cs ++ [column_header column])%list)
      as (h' & new & R & F & K).
    + intros e h0 cs0 He. apply Forall_cons in He as [He _].
      destruct (build_meta_arguments_total (meta e) h0 He) as (h1 & m & Rm & Km).
      exists h1, [column_cell e m]. split; [|split; [|done]].
      * unfold bind. rewrite Rm. done.
      * repeat constructor. by exists m.
    + apply Forall_forall. intros e He. constructor; [|done].
      rewrite Forall_forall in Hx. apply Hx.
      apply list_elem_of_In, in_map_iff. exists e. split; [done|].
      by apply list_elem_of_In.
    + exists h', (column_header column :: new). split; [|split; [|done]].
      * unfold bind at 1.
        change (add_markdown_cell "COLUMN_EXPECTATIONS.md"
                  [("column", TValue column)] (World h (Some cs)))
          with (World h (Some (cs ++ [column_header column])%list), Ok tt).
        cbv beta iota. rewrite R. by rewrite <- app_assoc.
      * unfold bucket_slots. simpl. constructor; [done|].
        by rewrite flat_map_singleton in F.
Qed.

Lemma add_markdown_cell_run (name : string) (params : list (string * tvalue))
    (h : gmap loc pyobj) (cs : list cell) :
  add_markdown_cell name params (World h (Some cs))
    = (World h (Some (cs ++ [Cell markdown_cell (Template name params false)])%list),
       Ok tt).
Proof. reflexivity. Qed.

Lemma add_footer_run (h : gmap loc pyobj) (cs : list cell) :
  add_footer (World h (Some cs)) = (World h (Some (cs ++ footer_cells)%list), Ok tt).
Proof.
  unfold add_footer, bind, add_markdown_cell, add_code_cell, append_cell. simpl.
  by rewrite <- app_assoc.
Qed.

Lemma fills_exactly (l : list cell) : Forall2 fills (map Exactly l) l.
Proof. induction l as [|c l IH]; simpl; by constructor. Qed.

(** The rule sections, for rules that are grouped into [table] and [cols]. *)
Lemma add_expectation_cells_run (exps : list ExpectationConfiguration)
    (table : list ExpectationConfiguration) (cols : grouped)
    (h : gmap loc pyobj) (cs : list cell) :
  _get_expectations_by_column exps = Ok ((table_key, table) :: cols) ->
  Forall (fun kb => Forall (allocated h) (map meta (snd kb))) cols ->
  exists h' new,
    add_expectation_cells_from_suite exps (World h (Some cs)) =
      (World h'
         (Some (cs ++ [static_markdown "TABLE_EXPECTATIONS_HEADER.md"]
                   ++ table_section table
                   ++ [static_markdown "COLUMN_EXPECTATIONS_HEADER.md"]
                   ++ new)%list),
       Ok tt)
    /\ Forall2 fills (column_section cols) new.
Proof.
  intros Hg Hcols.
  destruct (add_column_level_run cols h
              (((cs ++ [static_markdown "TABLE_EXPECTATIONS_HEADER.md"])
                ++ table_section table)
               ++ [static_markdown "COLUMN_EXPECTATIONS_HEADER.md"])%list Hcols)
    as (h' & new & R & F & _).
  exists h', new. split; [|exact F].
  unfold add_expectation_cells_from_suite.
  unfold bind at 1, lift. rewrite Hg. cbv beta iota.
  unfold bind at 1. rewrite add_markdown_cell_run. cbv beta iota.
  unfold bind at 1.
  rewrite (add_table_level_run _ table) by reflexivity. cbv beta iota.
  unfold bind at 1.
  change (od_mem key_eqb table_key ((table_key, table) :: cols)) with true.
  change (od_pop key_eqb table_key ((table_key, table) :: cols)) with cols.
  unfold ret at 1. cbv beta iota.
  unfold bind at 1. rewrite add_markdown_cell_run. cbv beta iota.
  unfold static_markdown in R. rewrite R.
  by rewrite <- !app_assoc.
Qed.

Section MoreAssemblerFacts.
Variable get_citations : gmap loc pyobj -> ExpectationSuite -> list citation.
Variable BatchKwargs_is_dict : bool.

Lemma get_batch_kwargs_keeps_allocated (suite : ExpectationSuite)
    (batch_kwargs : option loc) (w : world) (m : option loc) :
  allocated (heap w) m ->
  allocated
    (heap (fst (get_batch_kwargs get_citations BatchKwargs_is_dict suite
                  batch_kwargs w))) m.
Proof.
  intros H. unfold get_batch_kwargs, bind, read_heap. cbv beta iota.
  destruct (isinstance_dict BatchKwargs_is_dict (heap w) batch_kwargs);
    [by apply fix_path_keeps_allocated|].
  destruct (meta_citations suite) as [[|c cs]|];
    try by apply fix_path_keeps_allocated.
  destruct (last (get_citations (heap w) suite));
    [by apply fix_path_keeps_allocated|done].
Qed.

(** The document follows the grouped mapping: for inputs that the resolver
    and the header accept, [render] returns (and leaves in [self._notebook])
    the two header cells, the intro cell, the table section header, the
    table section of the table bucket, the column section header, the column
    section of the other buckets and the two footer cells. *)
Lemma render_document_of_grouping (self : SuiteEditNotebookRenderer)
    (suite : ExpectationSuite) (batch_kwargs : option loc) (w : world) :
  header_ok self = true ->
  descriptors_ok get_citations w suite batch_kwargs ->
  Forall (fun e => forall c, column_of e = Some c -> hashable c = true)
    (expectations suite) ->
  Forall (fun e => allocated (heap w) (meta e)) (expectations suite) ->
  exists (h1 : gmap loc pyobj) (d : option loc) (h' : gmap loc pyobj)
         (table : list ExpectationConfiguration) (cols : grouped)
         (cells : list cell),
    get_batch_kwargs get_citations BatchKwargs_is_dict suite batch_kwargs
      (World (heap w) (Some [])) = (World h1 (Some []), Ok d)
    /\ _get_expectations_by_column (expectations suite)
         = Ok ((table_key, table) :: cols)
    /\ render get_citations BatchKwargs_is_dict self (IsSuite suite) batch_kwargs w
         = (World h' (Some cells), Ok cells)
    /\ Forall2 fills
         (document_slots self (expectation_suite_name suite)
            (descriptor_items h1 d) table cols)
         cells
    /\ length cells
         = (7 + length (table_section table) + length (column_section cols))%nat.
Proof.
  intros Hh Hd Hcol Hmeta.
  destruct (get_batch_kwargs_total get_citations BatchKwargs_is_dict suite
              batch_kwargs (World (heap w) (Some [])) Hd)
    as (h1 & d & Hres & Halloc).
  simpl in Hres.
  assert (Hkeep : forall m, allocated (heap w) m -> allocated h1 m).
  { intros m Hm.
    pose proof (get_batch_kwargs_keeps_allocated suite batch_kwargs
                  (World (heap w) (Some [])) m Hm) as Hk.
    by rewrite Hres in Hk. }
  pose proof (get_expectations_by_column_spec _ Hcol) as Hg.
  set (table := List.filter (in_bucket table_key) (expectations suite)) in *.
  set (cols := map (new_bucket (expectations suite)) _) in *.
  assert (Hcols : Forall (fun kb => Forall (allocated h1) (map meta (snd kb))) cols).
  { apply Forall_forall. intros kb Hkb.
    apply list_elem_of_In, in_map_iff in Hkb as (k & <- & _). simpl.
    apply Forall_forall. intros m Hm.
    apply list_elem_of_In, in_map_iff in Hm as (e & <- & He).
    apply filter_In in He as [He _]. apply Hkeep.
    rewrite Forall_forall in Hmeta. apply Hmeta. by apply list_elem_of_In. }
  destruct (add_expectation_cells_run (expectations suite) table cols h1
              (([] ++ header_cells self (expectation_suite_name suite)
                        (descriptor_items h1 d)) ++ [intro_cell])%list Hg Hcols)
    as (h' & new & Rexp & Fnew).
  eexists h1, d, h', table, cols, _.
  split; [exact Hres|]. split; [exact Hg|].
  assert (Hrender :
    render get_citations BatchKwargs_is_dict self (IsSuite suite) batch_kwargs w
    = (World h'
         (Some ((header_cells self (expectation_suite_name suite)
                   (descriptor_items h1 d)
                 ++ [intro_cell; static_markdown "TABLE_EXPECTATIONS_HEADER.md"]
                 ++ table_section table
                 ++ [static_markdown "COLUMN_EXPECTATIONS_HEADER.md"])
                ++ new ++ footer_cells)%list),
       Ok ((header_cells self (expectation_suite_name suite)
              (descriptor_items h1 d)
            ++ [intro_cell; static_markdown "TABLE_EXPECTATIONS_HEADER.md"]
            ++ table_section table
            ++ [static_markdown "COLUMN_EXPECTATIONS_HEADER.md"])
           ++ new ++ footer_cells)%list)).
  { unfold render. unfold bind at 1.
    change (new_notebook w) with (World (heap w) (Some []), Ok tt).
    cbv beta iota zeta. unfold bind at 1. rewrite Hres. cbv beta iota.
    unfold bind at 1. rewrite (add_header_run _ _ _ _ _ Hh Halloc). cbv beta iota.
    unfold bind at 1. unfold add_authoring_intro. rewrite add_markdown_cell_run.
    cbv beta iota. unfold bind at 1. fold intro_cell. rewrite Rexp. cbv beta iota.
    unfold bind at 1. rewrite add_footer_run. cbv beta iota.
    unfold get_notebook. cbn [_notebook].
    rewrite app_nil_l. by rewrite <- !app_assoc. }
  split; [exact Hrender|].
  assert (Hfill : Forall2 fills
            (document_slots self (expectation_suite_name suite)
               (descriptor_items h1 d) table cols)
            ((header_cells self (expectation_suite_name suite)
                (descriptor_items h1 d)
              ++ [intro_cell; static_markdown "TABLE_EXPECTATIONS_HEADER.md"]
              ++ table_section table
              ++ [static_markdown "COLUMN_EXPECTATIONS_HEADER.md"])
             ++ new ++ footer_cells)%list).
  { unfold document_slots. apply Forall2_app; [apply fills_exactly|].
    apply Forall2_app; [exact Fnew|apply fills_exactly]. }
  split; [exact Hfill|].
  apply Forall2_length in Fnew. rewrite !length_app, <- Fnew. simpl. lia.
Qed.

(** X12: the document of any suite in which no column is named like the
    table bucket.  For inputs that the resolver and the header accept, rules
    whose [column] values can be dictionary keys and whose metadata are
    mappings of the store, [render] returns (and leaves in [self._notebook])
    exactly: the two header cells, the intro cell, the table section header,
    one executable cell per rule without a column, in suite order, or the
    table "not found" cell; the column section header, and for every column
    name in first-seen order a per-column header followed by one executable
    cell per rule on that column, in suite order, or the column "not found"
    cell when no rule has a column; then the two footer cells. *)
Theorem X12_render_document_structure (self : SuiteEditNotebookRenderer)
    (suite : ExpectationSuite) (batch_kwargs : option loc) (w : world) :
  header_ok self = true ->
  descriptors_ok get_citations w suite batch_kwargs ->
  Forall (fun e => forall c, column_of e = Some c -> hashable c = true)
    (expectations suite) ->
  no_reserved_column (expectations suite) ->
  Forall (fun e => allocated (heap w) (meta e)) (expectations suite) ->
  exists (h1 : gmap loc pyobj) (d : option loc) (h' : gmap loc pyobj)
         (cells : list cell),
    get_batch_kwargs get_citations BatchKwargs_is_dict suite batch_kwargs
      (World (heap w) (Some [])) = (World h1 (Some []), Ok d)
    /\ render get_citations BatchKwargs_is_dict self (IsSuite suite) batch_kwargs w
         = (World h' (Some cells), Ok cells)
    /\ Forall2 fills
         (document_slots self (expectation_suite_name suite)
            (descriptor_items h1 d)
            (table_scope_rules (expectations suite))
            (column_buckets (expectations suite)))
         cells
    /\ length cells
         = (7 + length (table_section (table_scope_rules (expectations suite)))
              + length (column_section (column_buckets (expectations suite))))%nat.
Proof.
  intros Hh Hd Hcol Hno Hmeta.
  destruct (render_document_of_grouping self suite batch_kwargs w Hh Hd Hcol Hmeta)
    as (h1 & d & h' & table & cols & cells & Hres & Hg & Hr & Hf & Hlen).
  rewrite (grouping_without_collision _ Hcol Hno) in Hg.
  injection Hg as <- <-.
  by exists h1, d, h', cells.
Qed.
End MoreAssemblerFacts.

Lemma X12_render_document_structure_witness :
  exists (h' : gmap loc pyobj) (cells : list cell),
    render citations_with_batch_kwargs true (MkRenderer None)
      (IsSuite suite_one_table_two_column) (Some 2%positive)
      world_with_profiled_rules
    = (World h' (Some cells), Ok cells)
    /\ length cells = 11%nat.
Proof.
  destruct (X12_render_document_structure citations_with_batch_kwargs true
              (MkRenderer None) suite_one_table_two_column (Some 2%positive)
              world_with_profiled_rules)
    as (h1 & d & h' & cells & _ & Hr & _ & Hlen).
  - reflexivity.
  - split; [reflexivity|]. vm_compute. constructor.
  - repeat constructor; intros c Hc; vm_compute in Hc; by inversion Hc.
  - repeat constructor.
  - repeat constructor; simpl; by eexists.
  - exists h', cells. split; [exact Hr|]. exact Hlen.
Defined.



Lemma fix_path_dict_non_string (w : world) (l : loc) (items : py_dict) (v : value) :
  heap w !! l = Some (PyObj ClsDict items) ->
  dict_get "path" items = Some v ->
  is_str v = false ->
  _fix_path_in_batch_kwargs (Some l) w = (w, Raise TypeError).
Proof.
  intros Hl Hp Hv. destruct (dict_get_mem _ _ _ Hp) as [Hmem Hne].
  unfold _fix_path_in_batch_kwargs. run. rewrite Hl. simpl. rewrite Hl. simpl.
  rewrite Hne, Hmem, Hp. simpl. by destruct v.
Qed.

Section RenderFailure.
Variable get_citations : gmap loc pyobj -> ExpectationSuite -> list citation.
Variable BatchKwargs_is_dict : bool.

(** X13: a failure inside [render] comes after the notebook was replaced:
    when the override is a plain [dict] whose [path] is not a string,
    [render] raises [TypeError], no cell is built, the store is unchanged,
    and [self._notebook] is the new empty notebook, not the document of an
    earlier call. *)
Theorem X13_render_failure_leaves_empty_notebook (self : SuiteEditNotebookRenderer)
    (suite : ExpectationSuite) (w : world) (l : loc) (items : py_dict) (v : value) :
  heap w !! l = Some (PyObj ClsDict items) ->
  dict_get "path" items = Some v ->
  is_str v = false ->
  render get_citations BatchKwargs_is_dict self (IsSuite suite) (Some l) w
    = (World (heap w) (Some []), Raise TypeError).
Proof.
  intros Hl Hp Hv. unfold render. unfold bind at 1.
  change (new_notebook w) with (World (heap w) (Some []), Ok tt).
  cbv beta iota zeta. unfold bind at 1.
  assert (Hres : get_batch_kwargs get_citations BatchKwargs_is_dict suite (Some l)
                   (World (heap w) (Some []))
                 = (World (heap w) (Some []), Raise TypeError)).
  { unfold get_batch_kwargs. run. rewrite Hl.
    by apply (fix_path_dict_non_string (World (heap w) (Some [])) l items v). }
  by rewrite Hres.
Qed.
End RenderFailure.

Lemma X13_render_failure_leaves_empty_notebook_witness :
  render citations_with_batch_kwargs true (MkRenderer None)
      (IsSuite suite_one_table_two_column) (Some 1%positive)
      (World (heap world_bad_path) (Some [intro_cell]))
    = (World (heap world_bad_path) (Some []), Raise TypeError).
Proof.
  apply (X13_render_failure_leaves_empty_notebook citations_with_batch_kwargs true
           (MkRenderer None) suite_one_table_two_column
           (World (heap world_bad_path) (Some [intro_cell])) 1%positive
           [("path", VInt 5)] (VInt 5)).
  - reflexivity.
  - reflexivity.
  - reflexivity.
Defined.

Lemma pop_keys_subset (k x : string) (d : py_dict) :
  In x (map fst (dict_pop k d)) -> In x (map fst d).
Proof.
  unfold dict_pop. induction d as [|[a v] d IH]; simpl; [done|].
  destruct (String.eqb a k); simpl; [by right|].
  intros [->|H]; [by left|]. right. by apply IH.
Qed.

Lemma NoDup_pop (k : string) (d : py_dict) :
  NoDup (map fst d) -> NoDup (map fst (dict_pop k d)).
Proof.
  induction d as [|[a v] d IH]; [done|].
  intros [Ha Hd]%NoDup_cons. unfold dict_pop. simpl.
  destruct (String.eqb a k); [done|]. simpl. apply NoDup_cons. split.
  - intros Hin. apply Ha. apply list_elem_of_In.
    apply (pop_keys_subset k). by apply list_elem_of_In.
  - by apply IH.
Qed.

Lemma without_profiler_twice (o : pyobj) :
  NoDup (map fst (obj_items o)) ->
  without_profiler (without_profiler o) = without_profiler o.
Proof.
  intros Hnd. unfold without_profiler. simpl.
  by rewrite (dict_pop_absent _ _ (dict_mem_pop profiler _ Hnd)).
Qed.

Lemma stripped_refl (h : gmap loc pyobj) : stripped h h.
Proof. intros l. by left. Qed.

Lemma stripped_trans (h h1 h2 : gmap loc pyobj) :
  store_wf h -> stripped h h1 -> stripped h1 h2 -> stripped h h2.
Proof.
  intros Hwf H1 H2 l. destruct (H2 l) as [E2|(o1 & Ho1 & E2)].
  - rewrite E2. apply H1.
  - destruct (H1 l) as [E1|(o & Ho & E1)].
    + right. exists o1. by rewrite <- E1.
    + right. exists o. split; [done|].
      rewrite E2. rewrite E1 in Ho1. injection Ho1 as <-.
      f_equal. apply without_profiler_twice. by apply (Hwf l).
Qed.

Lemma stripped_wf (h h' : gmap loc pyobj) :
  store_wf h -> stripped h h' -> store_wf h'.
Proof.
  intros Hwf Hs l o' Ho'. destruct (Hs l) as [E|(o & Ho & E)].
  - apply (Hwf l). by rewrite <- E.
  - rewrite E in Ho'. injection Ho' as <-. simpl.
    apply NoDup_pop. by apply (Hwf l).
Qed.

Lemma stripped_allocated (h h' : gmap loc pyobj) (m : option loc) :
  stripped h h' -> allocated h m -> allocated h' m.
Proof.
  intros Hs. destruct m as [l|]; simpl; [|done]. intros [o Ho].
  destruct (Hs l) as [E|(o' & _ & E)]; rewrite E; [by rewrite Ho|]; by eexists.
Qed.

Lemma stripped_profiler_free (h h' : gmap loc pyobj) (m : option loc) :
  stripped h h' -> profiler_free h m -> profiler_free h' m.
Proof.
  intros Hs. destruct m as [l|]; simpl; [|done]. intros (o & Ho & Hm).
  destruct (Hs l) as [E|(o' & Ho' & E)].
  - exists o. by rewrite E.
  - rewrite Ho in Ho'. injection Ho' as <-.
    exists (without_profiler o). split; [done|]. simpl.
    by rewrite (dict_pop_absent _ _ Hm).
Qed.

Lemma build_meta_arguments_strips (m : option loc) (h : gmap loc pyobj) :
  store_wf h ->
  allocated h m ->
  exists h' s,
    (forall nb, _build_meta_arguments m (World h nb) = (World h' nb, Ok s))
    /\ stripped h h'
    /\ profiler_free h' m.
Proof.
  intros Hwf. destruct m as [l|].
  - intros [o Ho].
    exists (<[l := without_profiler o]> h),
      (if is_empty (dict_pop profiler (obj_items o)) then ""
       else ", meta=" +:+ py_repr (VDict (dict_pop profiler (obj_items o)))).
    split; [|split].
    + intros nb. by rewrite (build_meta_arguments_run (World h nb) _ _ Ho).
    + intros l'. destruct (decide (l = l')) as [<-|Hne].
      * right. exists o. by rewrite lookup_insert_eq.
      * left. by rewrite lookup_insert_ne.
    + simpl. exists (without_profiler o). rewrite lookup_insert_eq.
      split; [done|]. simpl. apply dict_mem_pop. by apply (Hwf l).
  - intros _. exists h, "". by split; [|split; [apply stripped_refl|]].
Qed.

(** A loop whose body only strips profiler keys. *)
Lemma for_each_strips {A} (rules_of : A -> list ExpectationConfiguration)
    (body : A -> M unit) :
  (forall x h cs, store_wf h ->
     Forall (allocated h) (map meta (rules_of x)) ->
     exists h' cs',
       body x (World h (Some cs)) = (World h' (Some cs'), Ok tt)
       /\ stripped h h'
       /\ Forall (fun e => profiler_free h' (meta e)) (rules_of x)) ->
  forall l h cs, store_wf h ->
     Forall (fun x => Forall (allocated h) (map meta (rules_of x))) l ->
     exists h' cs',
       for_each l body (World h (Some cs)) = (World h' (Some cs'), Ok tt)
       /\ stripped h h'
       /\ Forall (fun x => Forall (fun e => profiler_free h' (meta e)) (rules_of x)) l.
Proof.
  intros Hbody l. induction l as [|x l IH]; intros h cs Hwf Hl.
  - exists h, cs. by split; [|split; [apply stripped_refl|]].
  - apply Forall_cons in Hl as [Hx Hl].
    destruct (Hbody x h cs Hwf Hx) as (h1 & cs1 & R1 & S1 & F1).
    destruct (IH h1 cs1) as (h2 & cs2 & R2 & S2 & F2).
    { by apply (stripped_wf h). }
    { eapply Forall_impl; [exact Hl|]. intros y Hy. simpl in Hy.
      eapply Forall_impl; [exact Hy|]. intros m. by apply stripped_allocated. }
    exists h2, cs2. split; [|split].
    + simpl. unfold bind. by rewrite R1, R2.
    + by apply (stripped_trans h h1 h2).
    + constructor; [|done]. eapply Forall_impl; [exact F1|].
      intros e. by apply stripped_profiler_free.
Qed.

(** X15: building the column section strips the profiler key from the
    metadata of every column rule, in the caller's objects, and does nothing
    else to the store: afterwards no rule of any column bucket has the
    profiler key in its metadata, and every mapping of the store is as it
    was or has lost just that key. *)
Theorem X15_column_section_strips_profiler_keys (cols : grouped)
    (h : gmap loc pyobj) (cs : list cell) :
  store_wf h ->
  Forall (fun kb => Forall (allocated h) (map meta (snd kb))) cols ->
  exists h' cs',
    _add_column_level_expectations cols (World h (Some cs))
      = (World h' (Some cs'), Ok tt)
    /\ stripped h h'
    /\ Forall (fun kb => Forall (fun e => profiler_free h' (meta e)) (snd kb)) cols.
Proof.
  intros Hwf Hcols. unfold _add_column_level_expectations.
  destruct cols as [|kb cols]; simpl is_empty; cbv iota.
  - eexists h, _. split; [reflexivity|]. by split; [apply stripped_refl|].
  - apply (for_each_strips (fun kb => snd kb)); [|done|done].
    clear. intros [column exps] h cs Hwf Hx. simpl in Hx.
    destruct (for_each_strips (fun e => [e])
                (fun exp =>
                   do meta_args <- _build_meta_arguments (meta exp);
                   add_code_cell "column_expectation.py" true
                     [("expectation", TExpectation exp);
                      ("kwargs_string", TText (_build_kwargs_string exp));
                      ("meta_args", TText meta_args)])) with
      (l := exps) (h := h) (cs := (cs ++ [column_header column])%list)
      as (h' & cs' & R & S & F).
    + intros e h0 cs0 Hwf0 He. apply Forall_cons in He as [He _].
      destruct (build_meta_arguments_strips (meta e) h0 Hwf0 He)
        as (h1 & m & Rm & Sm & Fm).
      eexists h1, _. split; [|split; [done|by constructor]].
      unfold bind. rewrite Rm. reflexivity.
    + done.
    + apply Forall_forall. intros e He. constructor; [|done].
      rewrite Forall_forall in Hx. apply Hx.
      apply list_elem_of_In, in_map_iff. exists e. split; [done|].
      by apply list_elem_of_In.
    + exists h', cs'. split; [|split; [done|]].
      * unfold bind at 1.
        change (add_markdown_cell "COLUMN_EXPECTATIONS.md"
                  [("column", TValue column)] (World h (Some cs)))
          with (World h (Some (cs ++ [column_header column])%list), Ok tt).
        cbv beta iota. exact R.
      * simpl. eapply Forall_impl; [exact F|]. intros e He.
        by apply Forall_cons in He as [He _].
Qed.

Lemma X15_column_section_strips_profiler_keys_witness :
  exists h' cs',
    _add_column_level_expectations [(VStr "x", [profiled_rule])]
      (World (heap world_with_meta) (Some []))
      = (World h' (Some cs'), Ok tt)
    /\ profiler_free h' (Some 1%positive).
Proof.
  destruct (X15_column_section_strips_profiler_keys [(VStr "x", [profiled_rule])]
              (heap world_with_meta) [])
    as (h' & cs' & R & _ & F).
  - intros l o Ho. unfold world_with_meta in Ho. cbn [heap] in Ho.
    apply lookup_singleton_Some in Ho as [_ <-].
    apply (bool_decide_unpack _). by vm_compute.
  - repeat constructor. simpl. by eexists.
  - exists h', cs'. split; [exact R|].
    apply Forall_cons in F as [F _]. by apply Forall_cons in F as [F _].
Defined.

(** X16: [add_header] with a header configuration whose [template_kwargs]
    repeat the keyword [suite_name] raises [TypeError] before any cell is
    appended; otherwise it appends exactly the header markdown cell and the
    linted [header.py] cell, and the template of the latter receives a
    mapping even when there is no descriptor: [None] becomes the empty dict. *)
Theorem X16_add_header_cells_or_type_error (self : SuiteEditNotebookRenderer)
    (suite_name : string) (d : option loc) (h : gmap loc pyobj) (cs : list cell) :
  allocated h d ->
  (header_ok self = false ->
     add_header self suite_name d (World h (Some cs))
       = (World h (Some cs), Raise TypeError))
  /\ (header_ok self = true ->
      add_header self suite_name d (World h (Some cs))
        = (World h (Some (cs ++ header_cells self suite_name
                                  (descriptor_items h d))%list), Ok tt))
  /\ (header_ok self = true -> d = None ->
      add_header self suite_name d (World h (Some cs))
        = (World h (Some (cs ++ header_cells self suite_name [])%list), Ok tt)).
Proof.
  intros Hd. split; [|split].
  - unfold header_ok, add_header. intros Hh.
    destruct (header_markdown self) as [cfg|]; [|done].
    apply negb_false_iff in Hh. unfold bind at 1. by rewrite Hh.
  - intros Hh. by apply add_header_run.
  - intros Hh ->. by apply (add_header_run self suite_name None).
Qed.

Lemma X16_add_header_cells_or_type_error_witness :
  add_header renderer_repeating_suite_name "mysuite" None (World ∅ (Some []))
    = (World ∅ (Some []), Raise TypeError)
  /\ add_header (MkRenderer None) "mysuite" None (World ∅ (Some []))
    = (World ∅ (Some (header_cells (MkRenderer None) "mysuite" [])), Ok tt).
Proof.
  split.
  - destruct (X16_add_header_cells_or_type_error renderer_repeating_suite_name
                "mysuite" None ∅ []) as (H & _); [done|].
    apply H. reflexivity.
  - destruct (X16_add_header_cells_or_type_error (MkRenderer None)
                "mysuite" None ∅ []) as (_ & _ & H); [done|].
    apply H; reflexivity.
Defined.
